(** * ovpn-dco: the UDP transport shim (drivers/net/ovpn-dco/udp.c)

    A shallow embedding of the entry points of udp.c

      - [ovpn_udp_encap_recv]    (ingress demultiplexer)
      - [ovpn_udp_send_skb]      (egress transmitter, with [ovpn_udp_output],
                                  [ovpn_udp4_output] and [ovpn_udp6_output])
      - [ovpn_udp_socket_attach] (socket binding manager)

    together with the properties of the design document that concern them.

    Pointers are machine words ([ptr], [NULL] is 0).  Every call the C code
    makes into a collaborator (peer directory, receive pipeline, routing
    subsystem, socket buffer primitives, diagnostics) is recorded, in program
    order, in a trace of [event]s; the collaborators' answers are the fields
    of the [IngressOps] and [EgressOps] interfaces.  The functions run in a
    small state monad over the socket buffer, the peer's route cache and the
    trace; [goto drop] becomes a call to [drop]. *)

From Stdlib Require Import ZArith List Bool Lia.
From Stdlib.Strings Require Import Byte.
Import ListNotations.
Open Scope Z_scope.

(** ** Machine words and kernel constants *)

Definition ptr := Z.
Definition NULL : ptr := 0.

Definition EBUSY : Z := 16.
Definition EINVAL : Z := 22.
Definition EAFNOSUPPORT : Z := 97.
Definition EHOSTUNREACH : Z := 113.
Definition EALREADY : Z := 114.
Definition MAX_ERRNO : Z := 4095.

Definition AF_INET : Z := 2.
Definition AF_INET6 : Z := 10.
Definition IPPROTO_UDP : Z := 17.
Definition CHECKSUM_NONE : Z := 0.

(** [sizeof(struct udphdr)]: source port, destination port, length, checksum. *)
Definition sizeof_udphdr : Z := 8.

(** Pointers and [long] are 64 bits wide, [int] is 32 bits wide. *)
Definition BITS_PER_LONG : Z := 64.

Definition to_ulong (x : Z) : Z := x mod 2 ^ BITS_PER_LONG.

Definition to_long (x : Z) : Z :=
  let u := to_ulong x in
  if u <? 2 ^ (BITS_PER_LONG - 1) then u else u - 2 ^ BITS_PER_LONG.

Definition to_int (x : Z) : Z :=
  let u := x mod 2 ^ 32 in
  if u <? 2 ^ 31 then u else u - 2 ^ 32.

(** Conversion to [__u8]. *)
Definition to_u8 (x : Z) : Z := x mod 2 ^ 8.

Arguments to_u8 : simpl never.

(** [IS_ERR_VALUE(x)] is [(unsigned long)x >= (unsigned long)-MAX_ERRNO]. *)
Definition IS_ERR (p : ptr) : bool :=
  to_ulong (- MAX_ERRNO) <=? to_ulong p.

Definition PTR_ERR (p : ptr) : Z := to_long p.

Definition ERR_PTR (err : Z) : ptr := to_ulong err.

(** ** Socket buffers *)

(** The part of [struct sk_buff] the transport shim touches.  [skb_head] is
    the linear area starting at [skb->data] ([skb_headlen] bytes), [skb_frags]
    the paged data behind it ([skb->data_len] bytes); on ingress [skb->data]
    points at the UDP header. *)
Record sk_buff := mk_skb {
  skb_head : list byte;
  skb_frags : list byte;
  skb_dev : ptr;
  skb_ip_summed : Z;
  skb_destructor : ptr;
  skb_sk : ptr
}.

Definition skb_headlen (skb : sk_buff) : Z := Z.of_nat (length (skb_head skb)).
Definition skb_data_len (skb : sk_buff) : Z := Z.of_nat (length (skb_frags skb)).
Definition skb_len (skb : sk_buff) : Z := skb_headlen skb + skb_data_len skb.

(** The bytes of the datagram, whatever their split between the linear area
    and the fragments. *)
Definition skb_bytes (skb : sk_buff) : list byte := skb_head skb ++ skb_frags skb.

Definition set_head_frags (skb : sk_buff) (h f : list byte) : sk_buff :=
  {| skb_head := h; skb_frags := f; skb_dev := skb_dev skb;
     skb_ip_summed := skb_ip_summed skb; skb_destructor := skb_destructor skb;
     skb_sk := skb_sk skb |}.

Definition set_dev (skb : sk_buff) (d : ptr) : sk_buff :=
  {| skb_head := skb_head skb; skb_frags := skb_frags skb; skb_dev := d;
     skb_ip_summed := skb_ip_summed skb; skb_destructor := skb_destructor skb;
     skb_sk := skb_sk skb |}.

Definition set_ip_summed (skb : sk_buff) (c : Z) : sk_buff :=
  {| skb_head := skb_head skb; skb_frags := skb_frags skb; skb_dev := skb_dev skb;
     skb_ip_summed := c; skb_destructor := skb_destructor skb;
     skb_sk := skb_sk skb |}.

Definition set_sk (skb : sk_buff) (s : ptr) : sk_buff :=
  {| skb_head := skb_head skb; skb_frags := skb_frags skb; skb_dev := skb_dev skb;
     skb_ip_summed := skb_ip_summed skb; skb_destructor := skb_destructor skb;
     skb_sk := s |}.

(** Two buffers hold the same datagram: same bytes, same metadata.  The
    linear/paged split is a matter of memory layout and is left free. *)
Definition skb_same_datagram (a b : sk_buff) : Prop :=
  skb_bytes a = skb_bytes b /\ skb_dev a = skb_dev b /\
  skb_ip_summed a = skb_ip_summed b /\ skb_destructor a = skb_destructor b /\
  skb_sk a = skb_sk b.

(** ** Sockets, bindings, flows *)

(** The ingress callback slot of a UDP socket ([udp_sk(sk)->encap_rcv]). *)
Inductive encap_rcv_t :=
| Encap_rcv_none
| Encap_rcv_ovpn_udp_encap_recv
| Encap_rcv_other (fn : ptr).

(** The fields of [struct sock] (with its [inet_sock] and [udp_sock] parts)
    read or written by udp.c and by the kernel's [setup_udp_tunnel_sock],
    which udp.c calls: [convert_csum] is the [__u8] counter of
    [inet_sock], [encap_enabled] the bit of [udp_sock] that
    [udp_tunnel_encap_enable] sets, and [encap_err_lookup],
    [encap_destroy], [gro_receive] and [gro_complete] are the other
    callback slots of [udp_sock] ([NULL] when empty). *)
Record sock := mk_sock {
  sk_protocol : Z;
  sk_mark : Z;
  sk_bound_dev_if : Z;
  sk_no_check_tx : bool;
  no_check6_tx : bool;
  inet_sport : Z;
  mc_loop : bool;
  convert_csum : Z;
  sk_user_data : ptr;
  encap_type : Z;
  encap_rcv : encap_rcv_t;
  encap_err_lookup : ptr;
  encap_destroy : ptr;
  gro_receive : ptr;
  gro_complete : ptr;
  encap_enabled : bool
}.

Record socket := mk_socket { sk : sock }.

Record ovpn_struct := mk_ovpn { dev : ptr }.

(** [struct ovpn_bind]: the views [sa.in4] and [sa.in6] of the address union. *)
Record ovpn_bind := mk_bind {
  sin_family : Z;
  in4_sin_addr : Z;
  in4_sin_port : Z;
  in6_sin6_addr : Z;
  in6_sin6_port : Z;
  in6_sin6_scope_id : Z
}.

Record flowi4 := mk_flowi4 {
  fl4_daddr : Z;
  fl4_saddr : Z;
  fl4_sport : Z;
  fl4_dport : Z;
  flowi4_proto : Z;
  flowi4_mark : Z;
  flowi4_oif : Z
}.

Record flowi6 := mk_flowi6 {
  fl6_daddr : Z;
  fl6_saddr : Z;
  fl6_sport : Z;
  fl6_dport : Z;
  flowi6_proto : Z;
  flowi6_mark : Z;
  flowi6_oif : Z
}.

(** One entry of a [struct dst_cache]: the cached destination and the source
    address it was derived from.  No entry: [None]. *)
Record dst_cache_entry := mk_dst { dc_dst : ptr; dc_saddr : Z }.
Definition dst_cache := option dst_cache_entry.

(** [struct ovpn_socket] as the egress path reads it ([peer->sock->sock]). *)
Record ovpn_socket := mk_ovpn_socket { os_sock : option socket }.

(** [struct ovpn_peer]: its identifier, transport socket and published
    binding ([NULL] pointers are [None]).  The route cache [peer->dst_cache]
    is mutable and lives in the machine state. *)
Record ovpn_peer := mk_peer {
  peer_id : Z;
  peer_sock : ovpn_socket;
  peer_bind : option ovpn_bind
}.

(** ** Traces *)

Inductive diag :=
| Diag_no_ovpn_object
| Diag_packet_too_small
| Diag_unknown_peer_id (id : Z)
| Diag_control_packet_unknown_peer
| Diag_cannot_handle_incoming (ret : Z)
| Diag_no_route_to_host
| Diag_no_sock
| Diag_no_bind.

Inductive event :=
| Ev_diag (d : diag)
| Ev_ovpn_peer_lookup_id (ovpn : ptr) (id : Z) (found : ptr)
| Ev_ovpn_peer_lookup_transp_addr (ovpn : ptr) (skb : sk_buff) (found : ptr)
| Ev_ovpn_peer_put (peer : ptr)
| Ev_ovpn_recv (ovpn peer : ptr) (skb : sk_buff)
| Ev_kfree_skb (skb : sk_buff)
| Ev_rcu_read_lock
| Ev_rcu_read_unlock
| Ev_ovpn_peer_keepalive_xmit_reset (id : Z)
| Ev_dst_cache_get (found : dst_cache)
| Ev_confirm_addr (family saddr : Z) (confirmed : bool)
| Ev_dst_cache_reset
| Ev_ip_route_output_flow (fl : flowi4) (rt : ptr)
| Ev_ipv6_dst_lookup_flow (fl : flowi6) (dst : ptr)
| Ev_dst_cache_set (dst : ptr) (saddr : Z)
| Ev_udp_tunnel_xmit_skb (rt : ptr) (skb : sk_buff) (src dst : Z)
    (ttl : Z) (src_port dst_port : Z) (nocheck : bool)
| Ev_udp_tunnel6_xmit_skb (dst : ptr) (skb : sk_buff) (dev : ptr)
    (saddr daddr : Z) (ttl : Z) (src_port dst_port : Z) (nocheck : bool).

Definition trace := list event.

Definition count (f : event -> bool) (tr : trace) : nat := length (filter f tr).

Definition is_kfree_skb (e : event) : bool :=
  match e with Ev_kfree_skb _ => true | _ => false end.

Definition is_xmit (e : event) : bool :=
  match e with
  | Ev_udp_tunnel_xmit_skb _ _ _ _ _ _ _ _ => true
  | Ev_udp_tunnel6_xmit_skb _ _ _ _ _ _ _ _ _ => true
  | _ => false
  end.

Definition is_peer_lookup (e : event) : bool :=
  match e with
  | Ev_ovpn_peer_lookup_id _ _ _ => true
  | Ev_ovpn_peer_lookup_transp_addr _ _ _ => true
  | _ => false
  end.

(** The lookup events that returned the handle [p]. *)
Definition is_lookup_of (p : ptr) (e : event) : bool :=
  match e with
  | Ev_ovpn_peer_lookup_id _ _ q => q =? p
  | Ev_ovpn_peer_lookup_transp_addr _ _ q => q =? p
  | _ => false
  end.

Definition is_peer_put (e : event) : bool :=
  match e with Ev_ovpn_peer_put _ => true | _ => false end.

Definition is_put_of (p : ptr) (e : event) : bool :=
  match e with Ev_ovpn_peer_put q => q =? p | _ => false end.

Definition is_ovpn_recv (e : event) : bool :=
  match e with Ev_ovpn_recv _ _ _ => true | _ => false end.

Definition is_recv_of (p : ptr) (e : event) : bool :=
  match e with Ev_ovpn_recv _ q _ => q =? p | _ => false end.

Definition is_keepalive (e : event) : bool :=
  match e with Ev_ovpn_peer_keepalive_xmit_reset _ => true | _ => false end.

(** ** The machine and its monad *)

Record machine := mk_machine {
  m_skb : sk_buff;
  m_cache : dst_cache;
  m_trace : trace
}.

Definition M (A : Type) : Type := machine -> A * machine.

Definition ret {A} (a : A) : M A := fun m => (a, m).

Definition bind {A B} (c : M A) (k : A -> M B) : M B :=
  fun m => let (a, m') := c m in k a m'.

Declare Scope prog_scope.
Delimit Scope prog_scope with prog.
Notation "x <- c ;; k" := (bind c (fun x => k))
  (at level 100, c at next level, right associativity) : prog_scope.
Notation "c ;; k" := (bind c (fun _ => k))
  (at level 100, right associativity) : prog_scope.
Open Scope prog_scope.

Definition emit (e : event) : M unit :=
  fun m => (tt, {| m_skb := m_skb m; m_cache := m_cache m;
                   m_trace := m_trace m ++ [e] |}).

Definition get_skb : M sk_buff := fun m => (m_skb m, m).

Definition put_skb (s : sk_buff) : M unit :=
  fun m => (tt, {| m_skb := s; m_cache := m_cache m; m_trace := m_trace m |}).

Definition get_cache : M dst_cache := fun m => (m_cache m, m).

Definition put_cache (c : dst_cache) : M unit :=
  fun m => (tt, {| m_skb := m_skb m; m_cache := c; m_trace := m_trace m |}).

(** The machine a call starts on: the buffer it is given, the peer's route
    cache, an empty trace. *)
Definition start (skb : sk_buff) (cache : dst_cache) : machine :=
  {| m_skb := skb; m_cache := cache; m_trace := [] |}.

(** Diagnostics ([pr_err], [pr_debug], rate limited or not). *)
Definition pr (d : diag) : M unit := emit (Ev_diag d).

(** [kfree_skb(skb)]. *)
Definition kfree_skb : M unit :=
  skb <- get_skb ;; emit (Ev_kfree_skb skb).

(** [__skb_pull(skb, len)]: [skb->len -= len; skb->data += len]. *)
Definition skb_pull_bytes (skb : sk_buff) (len : Z) : sk_buff :=
  set_head_frags skb (skipn (Z.to_nat len) (skb_head skb)) (skb_frags skb).

Definition __skb_pull (len : Z) : M unit :=
  skb <- get_skb ;;
  put_skb (skb_pull_bytes skb len).

(** ** Ingress demultiplexer *)

(** What the ingress path asks of its collaborators.  None of them is defined
    in udp.c: [ovpn_from_udp_sock] resolves the device context from the
    socket's private data ([NULL] when there is none), the opcode and peer-id
    accessors and [OVPN_DATA_V2] belong to the tunnel protocol header, the two
    lookups to the peer directory (they return a referenced handle, or
    [NULL]), [ovpn_recv] is the tunnel receive pipeline.
    [pskb_expand_head_ok] tells whether the reallocation [__pskb_pull_tail]
    may need succeeds. *)
Class IngressOps := {
  ovpn_from_udp_sock : sock -> ptr;
  OVPN_DATA_V2 : Z;
  ovpn_opcode_from_skb : sk_buff -> Z -> Z;
  ovpn_peer_id_from_skb : sk_buff -> Z -> Z;
  ovpn_peer_lookup_id : ptr -> Z -> ptr;
  ovpn_peer_lookup_transp_addr : ptr -> sk_buff -> ptr;
  ovpn_recv : ptr -> ptr -> sk_buff -> Z;
  pskb_expand_head_ok : sk_buff -> Z -> bool
}.

Section Ingress.
Context {ops : IngressOps}.

(** [__pskb_pull_tail(skb, delta)]: move [delta] bytes from the fragments
    to the end of the linear area; fails, leaving the buffer as it was,
    when memory is short. *)
Definition __pskb_pull_tail (delta : Z) : M bool :=
  skb <- get_skb ;;
  if pskb_expand_head_ok skb delta then
    put_skb (set_head_frags skb
               (skb_head skb ++ firstn (Z.to_nat delta) (skb_frags skb))
               (skipn (Z.to_nat delta) (skb_frags skb))) ;;
    ret true
  else ret false.

(** [pskb_may_pull(skb, len)] of linux/skbuff.h. *)
Definition pskb_may_pull (len : Z) : M bool :=
  skb <- get_skb ;;
  if len <=? skb_headlen skb then ret true
  else if skb_len skb <? len then ret false
  else __pskb_pull_tail (len - skb_headlen skb).

Definition lookup_id (ovpn : ptr) (id : Z) : M ptr :=
  let peer := ovpn_peer_lookup_id ovpn id in
  emit (Ev_ovpn_peer_lookup_id ovpn id peer) ;; ret peer.

Definition lookup_transp_addr (ovpn : ptr) : M ptr :=
  skb <- get_skb ;;
  let peer := ovpn_peer_lookup_transp_addr ovpn skb in
  emit (Ev_ovpn_peer_lookup_transp_addr ovpn skb peer) ;; ret peer.

Definition recv (ovpn peer : ptr) : M Z :=
  skb <- get_skb ;;
  emit (Ev_ovpn_recv ovpn peer skb) ;; ret (ovpn_recv ovpn peer skb).

(** The [drop:] label. *)
Definition drop (peer : ptr) : M Z :=
  (if peer =? NULL then ret tt else emit (Ev_ovpn_peer_put peer)) ;;
  kfree_skb ;;
  ret 0.

(** From [__skb_pull] to the end of the function: both branches of the
    opcode test fall through to it once they hold a peer. *)
Definition deliver (ovpn peer : ptr) : M Z :=
  __skb_pull sizeof_udphdr ;;
  r <- recv ovpn peer ;;
  if r <? 0 then
    pr (Diag_cannot_handle_incoming r) ;; drop peer
  else ret r.

Definition ovpn_udp_encap_recv (sk : sock) : M Z :=
  let peer := NULL in
  let ovpn := ovpn_from_udp_sock sk in
  if ovpn =? NULL then
    pr Diag_no_ovpn_object ;; drop peer
  else
    ok <- pskb_may_pull (sizeof_udphdr + 4) ;;
    if negb ok then
      pr Diag_packet_too_small ;; drop peer
    else
      skb <- get_skb ;;
      if ovpn_opcode_from_skb skb sizeof_udphdr =? OVPN_DATA_V2 then
        let id := ovpn_peer_id_from_skb skb sizeof_udphdr in
        peer <- lookup_id ovpn id ;;
        if peer =? NULL then
          pr (Diag_unknown_peer_id id) ;; drop peer
        else deliver ovpn peer
      else
        peer <- lookup_transp_addr ovpn ;;
        if peer =? NULL then
          pr Diag_control_packet_unknown_peer ;; ret 1
        else deliver ovpn peer.

(** One invocation of the ingress callback on a fresh machine. *)
Definition handle_ingress (sk : sock) (skb : sk_buff) : Z * machine :=
  ovpn_udp_encap_recv sk (start skb None).

End Ingress.

(** ** Egress transmitter *)

(** The routing subsystem and the build configuration, as the egress path
    sees them.  [inet_confirm_addr] returns the confirmed address (0 when the
    address is not assigned locally), [ipv6_chk_addr] a truth value as an
    [int]; the two route lookups return the route, or an [ERR_PTR], together
    with the source address they resolved into the flow. *)
Class EgressOps := {
  CONFIG_IPV6 : bool;
  inet_confirm_addr : sock -> Z -> Z;
  ipv6_chk_addr : sock -> Z -> Z;
  ip_route_output_flow : sock -> flowi4 -> ptr * Z;
  ipv6_dst_lookup_flow : sock -> flowi6 -> ptr * Z;
  ip4_dst_hoplimit : ptr -> Z;
  ip6_dst_hoplimit : ptr -> Z
}.

Definition set_fl4_saddr (fl : flowi4) (a : Z) : flowi4 :=
  {| fl4_daddr := fl4_daddr fl; fl4_saddr := a; fl4_sport := fl4_sport fl;
     fl4_dport := fl4_dport fl; flowi4_proto := flowi4_proto fl;
     flowi4_mark := flowi4_mark fl; flowi4_oif := flowi4_oif fl |}.

Definition set_fl6_saddr (fl : flowi6) (a : Z) : flowi6 :=
  {| fl6_daddr := fl6_daddr fl; fl6_saddr := a; fl6_sport := fl6_sport fl;
     fl6_dport := fl6_dport fl; flowi6_proto := flowi6_proto fl;
     flowi6_mark := flowi6_mark fl; flowi6_oif := flowi6_oif fl |}.

(** The initialiser of [struct flowi4 fl] in [ovpn_udp4_output]; members not
    named there ([saddr]) start at zero.  [flowi4_proto] is a [__u8]; the
    other members have the type of what is copied into them. *)
Definition flow4_init (bind : ovpn_bind) (sk : sock) : flowi4 :=
  {| fl4_daddr := in4_sin_addr bind; fl4_saddr := 0;
     fl4_sport := inet_sport sk; fl4_dport := in4_sin_port bind;
     flowi4_proto := to_u8 (sk_protocol sk); flowi4_mark := sk_mark sk;
     flowi4_oif := sk_bound_dev_if sk |}.

(** The initialiser of [struct flowi6 fl] in [ovpn_udp6_output];
    [flowi6_proto] is a [__u8], and [flowi6_oif] is an [int] where
    [sin6_scope_id] is a [__u32]. *)
Definition flow6_init (bind : ovpn_bind) (sk : sock) : flowi6 :=
  {| fl6_daddr := in6_sin6_addr bind; fl6_saddr := 0;
     fl6_sport := inet_sport sk; fl6_dport := in6_sin6_port bind;
     flowi6_proto := to_u8 (sk_protocol sk); flowi6_mark := sk_mark sk;
     flowi6_oif := to_int (in6_sin6_scope_id bind) |}.

Section Egress.
Context {ops : EgressOps}.

(** [dst_cache_get_ip4] / [dst_cache_get_ip6]: the cached destination, or
    [NULL]; the recorded source address is stored through [saddr] only when
    there is an entry. *)
Definition dst_cache_get (saddr : Z) : M (ptr * Z) :=
  c <- get_cache ;;
  emit (Ev_dst_cache_get c) ;;
  match c with
  | Some e => ret (dc_dst e, dc_saddr e)
  | None => ret (NULL, saddr)
  end.

Definition dst_cache_reset : M unit :=
  put_cache None ;; emit Ev_dst_cache_reset.

Definition dst_cache_set (dst : ptr) (saddr : Z) : M unit :=
  put_cache (Some {| dc_dst := dst; dc_saddr := saddr |}) ;;
  emit (Ev_dst_cache_set dst saddr).

Definition confirm4 (sk : sock) (saddr : Z) : M bool :=
  let ok := negb (inet_confirm_addr sk saddr =? 0) in
  emit (Ev_confirm_addr AF_INET saddr ok) ;; ret ok.

Definition confirm6 (sk : sock) (saddr : Z) : M bool :=
  let ok := negb (ipv6_chk_addr sk saddr =? 0) in
  emit (Ev_confirm_addr AF_INET6 saddr ok) ;; ret ok.

(** The [transmit:] label of [ovpn_udp4_output].  [ip4_dst_hoplimit]
    returns an [int]; the [ttl] parameter of [udp_tunnel_xmit_skb] is a
    [__u8]. *)
Definition transmit4 (rt : ptr) (fl : flowi4) (sk : sock) : M Z :=
  skb <- get_skb ;;
  emit (Ev_udp_tunnel_xmit_skb rt skb (fl4_saddr fl) (fl4_daddr fl)
          (to_u8 (ip4_dst_hoplimit rt)) (fl4_sport fl) (fl4_dport fl)
          (sk_no_check_tx sk)) ;;
  ret 0.

Definition ovpn_udp4_output (ovpn : ovpn_struct) (bind : ovpn_bind)
    (sk : sock) : M Z :=
  let fl := flow4_init bind sk in
  got <- dst_cache_get (fl4_saddr fl) ;;
  let rt := fst got in
  let fl := set_fl4_saddr fl (snd got) in
  usable <- (if rt =? NULL then ret false else confirm4 sk (fl4_saddr fl)) ;;
  if usable then transmit4 rt fl sk
  else
    let fl := set_fl4_saddr fl 0 in
    dst_cache_reset ;;
    let looked := ip_route_output_flow sk fl in
    let rt := fst looked in
    emit (Ev_ip_route_output_flow fl rt) ;;
    let fl := set_fl4_saddr fl (snd looked) in
    if IS_ERR rt then
      pr Diag_no_route_to_host ;; ret (- EHOSTUNREACH)
    else
      dst_cache_set rt (fl4_saddr fl) ;;
      transmit4 rt fl sk.

(** The [transmit:] label of [ovpn_udp6_output].  [ip6_dst_hoplimit]
    returns an [int]; the [ttl] parameter of [udp_tunnel6_xmit_skb] is a
    [__u8]. *)
Definition transmit6 (dst : ptr) (fl : flowi6) (sk : sock) : M Z :=
  skb <- get_skb ;;
  emit (Ev_udp_tunnel6_xmit_skb dst skb (skb_dev skb) (fl6_saddr fl)
          (fl6_daddr fl) (to_u8 (ip6_dst_hoplimit dst)) (fl6_sport fl)
          (fl6_dport fl) (no_check6_tx sk)) ;;
  ret 0.

Definition ovpn_udp6_output (ovpn : ovpn_struct) (bind : ovpn_bind)
    (sk : sock) : M Z :=
  let fl := flow6_init bind sk in
  got <- dst_cache_get (fl6_saddr fl) ;;
  let dst := fst got in
  let fl := set_fl6_saddr fl (snd got) in
  usable <- (if dst =? NULL then ret false else confirm6 sk (fl6_saddr fl)) ;;
  if usable then transmit6 dst fl sk
  else
    let fl := set_fl6_saddr fl 0 in
    dst_cache_reset ;;
    let looked := ipv6_dst_lookup_flow sk fl in
    let dst := fst looked in
    emit (Ev_ipv6_dst_lookup_flow fl dst) ;;
    let fl := set_fl6_saddr fl (snd looked) in
    if IS_ERR dst then
      ret (to_int (PTR_ERR dst))
    else
      dst_cache_set dst (fl6_saddr fl) ;;
      transmit6 dst fl sk.

Definition ovpn_udp_output (ovpn : ovpn_struct) (bind : ovpn_bind)
    (sk : sock) : M Z :=
  skb <- get_skb ;;
  (if skb_destructor skb =? NULL then put_skb (set_sk skb NULL) else ret tt) ;;
  if sin_family bind =? AF_INET then ovpn_udp4_output ovpn bind sk
  else if CONFIG_IPV6 && (sin_family bind =? AF_INET6) then
    ovpn_udp6_output ovpn bind sk
  else ret (- EAFNOSUPPORT).

(** [ovpn_udp_send_skb] down to the [out:] label; the result is the value
    of the local [ret] there. *)
Definition ovpn_udp_send_skb_ret (ovpn : ovpn_struct) (peer : ovpn_peer)
    : M Z :=
  skb <- get_skb ;;
  put_skb (set_ip_summed (set_dev skb (dev ovpn)) CHECKSUM_NONE) ;;
  match os_sock (peer_sock peer) with
  | None => pr Diag_no_sock ;; ret (-1)
  | Some sock =>
      emit Ev_rcu_read_lock ;;
      r <- match peer_bind peer with
           | None => pr Diag_no_bind ;; ret (-1)
           | Some bind =>
               emit (Ev_ovpn_peer_keepalive_xmit_reset (peer_id peer)) ;;
               ovpn_udp_output ovpn bind (sk sock)
           end ;;
      emit Ev_rcu_read_unlock ;;
      ret r
  end.

Definition ovpn_udp_send_skb (ovpn : ovpn_struct) (peer : ovpn_peer)
    : M unit :=
  r <- ovpn_udp_send_skb_ret ovpn peer ;;
  if r <? 0 then kfree_skb else ret tt.

(** One invocation of the transmitter: the datagram [skb], the peer's
    route cache as it stands. *)
Definition send (ovpn : ovpn_struct) (peer : ovpn_peer) (skb : sk_buff)
    (cache : dst_cache) : machine :=
  snd (ovpn_udp_send_skb ovpn peer (start skb cache)).

End Egress.

(** ** Socket binding manager *)

(** [struct udp_tunnel_sock_cfg]; a member an initialiser does not name is
    zero. *)
Record udp_tunnel_sock_cfg := mk_cfg {
  cfg_sk_user_data : ptr;
  cfg_encap_type : Z;
  cfg_encap_rcv : encap_rcv_t;
  cfg_encap_err_lookup : ptr;
  cfg_encap_destroy : ptr;
  cfg_gro_receive : ptr;
  cfg_gro_complete : ptr
}.

(** [setup_udp_tunnel_sock] of the kernel's UDP tunnel core (Linux 5.10,
    net/ipv4/udp_tunnel_core.c), statement by statement:
    [inet_sk(sk)->mc_loop = 0]; [inet_inc_convert_csum(sk)], which is
    [inet_sk(sk)->convert_csum++] on a [__u8]; the private data and the six
    members of [udp_sk(sk)] copied from the configuration; and
    [udp_tunnel_encap_enable(sock)], which sets [encap_enabled] if it is
    not set yet.  The static keys that [udp_tunnel_encap_enable] bumps when
    it sets the bit are switches of the UDP receive path, shared by all
    sockets; they are no part of the socket and are left out. *)
Definition setup_udp_tunnel_sock (sock : socket) (cfg : udp_tunnel_sock_cfg)
    : socket :=
  let s := sk sock in
  {| sk := {| sk_protocol := sk_protocol s; sk_mark := sk_mark s;
              sk_bound_dev_if := sk_bound_dev_if s;
              sk_no_check_tx := sk_no_check_tx s;
              no_check6_tx := no_check6_tx s;
              inet_sport := inet_sport s;
              mc_loop := false;
              convert_csum := to_u8 (convert_csum s + 1);
              sk_user_data := cfg_sk_user_data cfg;
              encap_type := cfg_encap_type cfg;
              encap_rcv := cfg_encap_rcv cfg;
              encap_err_lookup := cfg_encap_err_lookup cfg;
              encap_destroy := cfg_encap_destroy cfg;
              gro_receive := cfg_gro_receive cfg;
              gro_complete := cfg_gro_complete cfg;
              encap_enabled := true |} |}.

Section SocketBinding.
(** The encapsulation type of the driver's user-space interface. *)
Variable UDP_ENCAP_OVPNINUDP : Z.

(** [ovpn_socket_ovpn p] is what the load [p->ovpn] yields for
    [p : struct ovpn_socket *]: the pointer held by the [ovpn] member of
    the memory [p] points to.  Attaching does not write to that memory. *)
Variable ovpn_socket_ovpn : ptr -> ptr.

(** The device context pointer [ovpn] is what the configuration carries as
    private data; the pre-existing private data is read back as a
    [struct ovpn_socket *].  The result is the return value and the socket
    as the call leaves it; the three diagnostics only log. *)
Definition ovpn_udp_socket_attach (sock : socket) (ovpn : ptr)
    : Z * socket :=
  let cfg := {| cfg_sk_user_data := ovpn;
                cfg_encap_type := UDP_ENCAP_OVPNINUDP;
                cfg_encap_rcv := Encap_rcv_ovpn_udp_encap_recv;
                cfg_encap_err_lookup := NULL; cfg_encap_destroy := NULL;
                cfg_gro_receive := NULL; cfg_gro_complete := NULL |} in
  if negb (sk_protocol (sk sock) =? IPPROTO_UDP) then (- EINVAL, sock)
  else
    let old_data := sk_user_data (sk sock) in
    if negb (old_data =? NULL) then
      if ovpn_socket_ovpn old_data =? ovpn then (- EALREADY, sock)
      else (- EBUSY, sock)
    else (0, setup_udp_tunnel_sock sock cfg).

(** The device context the contention check of [ovpn_udp_socket_attach]
    finds on a socket: [None] when the socket is unclaimed. *)
Definition socket_owner (sock : socket) : option ptr :=
  let old_data := sk_user_data (sk sock) in
  if old_data =? NULL then None else Some (ovpn_socket_ovpn old_data).

End SocketBinding.

(** ** Vocabulary of the properties *)

(** The minimum an ingress datagram must hold: the UDP header and the four
    bytes of opcode, key id and peer id behind it. *)
Definition min_ingress_len : Z := sizeof_udphdr + 4.

Section IngressVocabulary.
Context {ops : IngressOps}.

(** The answer of [pskb_may_pull(skb, len)] and the buffer it leaves. *)
Definition may_pull (skb : sk_buff) (len : Z) : bool :=
  fst (pskb_may_pull len (start skb None)).

Definition pulled (skb : sk_buff) (len : Z) : sk_buff :=
  m_skb (snd (pskb_may_pull len (start skb None))).

(** Hand-offs of the handle [p] that the pipeline answered with a
    non-negative status, and those it answered with a negative one. *)
Definition is_accepted_recv_of (p : ptr) (e : event) : bool :=
  match e with
  | Ev_ovpn_recv o q s => (q =? p) && (0 <=? ovpn_recv o q s)
  | _ => false
  end.

Definition is_rejected_recv_of (p : ptr) (e : event) : bool :=
  match e with
  | Ev_ovpn_recv o q s => (q =? p) && (ovpn_recv o q s <? 0)
  | _ => false
  end.

(** Releases of the handle [p] when the pipeline keeps the reference it is
    handed only if it answers with a non-negative status. *)
Definition releases (p : ptr) (tr : trace) : nat :=
  (count (is_put_of p) tr + count (is_accepted_recv_of p) tr)%nat.

End IngressVocabulary.

(** Modelled from the spec: the receive pipeline ([ovpn_recv], defined outside
    udp.c) "assumes ownership of the reference it receives", so every hand-off
    of the handle [p] counts as a release of it, next to the
    [ovpn_peer_put] calls of the shim itself. *)
Definition releases_spec (p : ptr) (tr : trace) : nat :=
  (count (is_put_of p) tr + count (is_recv_of p) tr)%nat.

Definition xmit_route (e : event) : ptr :=
  match e with
  | Ev_udp_tunnel_xmit_skb rt _ _ _ _ _ _ _ => rt
  | Ev_udp_tunnel6_xmit_skb dst _ _ _ _ _ _ _ _ => dst
  | _ => NULL
  end.

Definition xmit_saddr (e : event) : Z :=
  match e with
  | Ev_udp_tunnel_xmit_skb _ _ src _ _ _ _ _ => src
  | Ev_udp_tunnel6_xmit_skb _ _ _ saddr _ _ _ _ _ => saddr
  | _ => 0
  end.

Section EgressVocabulary.
Context {ops : EgressOps}.

(** The cached route cannot be used: there is no entry, or the source
    address recorded with it is not confirmed on the local host. *)
Definition cache_unusable4 (sk : sock) (cache : dst_cache) : Prop :=
  match cache with
  | None => True
  | Some e => dc_dst e = NULL \/ inet_confirm_addr sk (dc_saddr e) = 0
  end.

Definition cache_unusable6 (sk : sock) (cache : dst_cache) : Prop :=
  match cache with
  | None => True
  | Some e => dc_dst e = NULL \/ ipv6_chk_addr sk (dc_saddr e) = 0
  end.

(** The binding's family has an output routine in this build. *)
Definition family_supported (b : ovpn_bind) : bool :=
  (sin_family b =? AF_INET) || (CONFIG_IPV6 && (sin_family b =? AF_INET6)).

(** The failure paths of [ovpn_udp_send_skb]. *)
Inductive send_fails (peer : ovpn_peer) (cache : dst_cache) : Prop :=
| Fail_no_sock :
    os_sock (peer_sock peer) = None -> send_fails peer cache
| Fail_no_bind :
    peer_bind peer = None -> send_fails peer cache
| Fail_family b :
    peer_bind peer = Some b -> family_supported b = false ->
    send_fails peer cache
| Fail_route4 sock b :
    os_sock (peer_sock peer) = Some sock -> peer_bind peer = Some b ->
    sin_family b = AF_INET -> cache_unusable4 (sk sock) cache ->
    IS_ERR (fst (ip_route_output_flow (sk sock) (flow4_init b (sk sock)))) = true ->
    send_fails peer cache
| Fail_route6 sock b :
    os_sock (peer_sock peer) = Some sock -> peer_bind peer = Some b ->
    CONFIG_IPV6 = true -> sin_family b = AF_INET6 ->
    cache_unusable6 (sk sock) cache ->
    IS_ERR (fst (ipv6_dst_lookup_flow (sk sock) (flow6_init b (sk sock)))) = true ->
    send_fails peer cache.

End EgressVocabulary.

(** ** Sample collaborators and inputs

    One possible world to run the model in: the device context lives at
    4096, the peer directory knows peer id 7 (handle 7000) and no transport
    address, the header prefix is read big-endian with the opcode in the top
    five bits and the peer id in the low 24. *)
Module Sample.

Definition byte_of (n : N) : byte :=
  match Byte.of_N n with Some b => b | None => x00 end.

Definition be32_at (l : list byte) (off : Z) : Z :=
  match skipn (Z.to_nat off) l with
  | b0 :: b1 :: b2 :: b3 :: _ =>
      Z.of_N (Byte.to_N b0) * 2 ^ 24 + Z.of_N (Byte.to_N b1) * 2 ^ 16 +
      Z.of_N (Byte.to_N b2) * 2 ^ 8 + Z.of_N (Byte.to_N b3)
  | _ => 0
  end.

Definition device : ptr := 4096.
Definition peer7 : ptr := 7000.
Definition peer_by_addr : ptr := 7001.

(** [recv_status]: what the pipeline answers; [known_addr]: whether the
    directory matches the datagram's source address. *)
Definition ingress_ops (recv_status : Z) (known_addr : bool) : IngressOps :=
  {| ovpn_from_udp_sock := fun s =>
       if sk_user_data s =? NULL then NULL else device;
     OVPN_DATA_V2 := 9;
     ovpn_opcode_from_skb := fun s off =>
       Z.shiftr (be32_at (skb_head s) off) 27;
     ovpn_peer_id_from_skb := fun s off =>
       Z.land (be32_at (skb_head s) off) 16777215;
     ovpn_peer_lookup_id := fun _ id => if id =? 7 then peer7 else NULL;
     ovpn_peer_lookup_transp_addr := fun _ _ =>
       if known_addr then peer_by_addr else NULL;
     ovpn_recv := fun _ _ _ => recv_status;
     pskb_expand_head_ok := fun _ _ => true |}.

Definition udp_socket (user_data : ptr) : sock :=
  {| sk_protocol := IPPROTO_UDP; sk_mark := 0; sk_bound_dev_if := 0;
     sk_no_check_tx := false; no_check6_tx := false; inet_sport := 1194;
     mc_loop := true; convert_csum := 0; sk_user_data := user_data;
     encap_type := 0; encap_rcv := Encap_rcv_none;
     encap_err_lookup := NULL; encap_destroy := NULL; gro_receive := NULL;
     gro_complete := NULL; encap_enabled := false |}.

Definition buffer (head frags : list byte) : sk_buff :=
  {| skb_head := head; skb_frags := frags; skb_dev := NULL;
     skb_ip_summed := 1; skb_destructor := NULL; skb_sk := NULL |}.

Definition udp_header : list byte :=
  map byte_of [4; 170; 4; 170; 0; 20; 0; 0]%N.

(** Opcode 9 (DATA_V2), key id 0, peer id 7, eight bytes of payload. *)
Definition data_v2_peer7 : list byte :=
  udp_header ++ map byte_of [72; 0; 0; 7; 1; 2; 3; 4; 5; 6; 7; 8]%N.

(** Opcode 9, peer id 8: not in the directory. *)
Definition data_v2_peer8 : list byte :=
  udp_header ++ map byte_of [72; 0; 0; 8; 1; 2; 3; 4; 5; 6; 7; 8]%N.

(** Opcode 7 (a control packet). *)
Definition control_packet : list byte :=
  udp_header ++ map byte_of [56; 0; 0; 0; 1; 2; 3; 4; 5; 6; 7; 8]%N.

(** The UDP header and two more bytes. *)
Definition truncated : list byte := firstn 10 data_v2_peer7.

(** Routing: 203.0.113.9 is reached through the route at 36864 from the
    local address 10.0.0.1; nothing else is reachable.  Only 10.0.0.1 is
    assigned locally. *)
Definition remote4 : Z := 3405803785.
Definition local4 : Z := 167772161.
Definition route4 : ptr := 36864.

Definition egress_ops : EgressOps :=
  {| CONFIG_IPV6 := true;
     inet_confirm_addr := fun _ a => if a =? local4 then a else 0;
     ipv6_chk_addr := fun _ a => if a =? 1 then 1 else 0;
     ip_route_output_flow := fun _ fl =>
       if fl4_daddr fl =? remote4 then (route4, local4)
       else (ERR_PTR (- EHOSTUNREACH), 0);
     ipv6_dst_lookup_flow := fun _ fl => (ERR_PTR (-101), 0);
     ip4_dst_hoplimit := fun _ => 64;
     ip6_dst_hoplimit := fun _ => 64 |}.

Definition tun : ovpn_struct := {| dev := 512 |}.

Definition bind_to (family addr : Z) : ovpn_bind :=
  {| sin_family := family; in4_sin_addr := addr; in4_sin_port := 1194;
     in6_sin6_addr := addr; in6_sin6_port := 1194; in6_sin6_scope_id := 0 |}.

Definition peer_with (s : option socket) (b : option ovpn_bind) : ovpn_peer :=
  {| peer_id := 7; peer_sock := {| os_sock := s |}; peer_bind := b |}.

Definition transport : socket := {| sk := udp_socket 64 |}.

Definition payload : sk_buff := buffer (skipn 8 data_v2_peer7) [].

(** Memory for the binding manager: the device context at 4096 starts
    with the pointer 8192, the [struct ovpn_socket] at 64 names the device
    at 4096. *)
Definition memory (p : ptr) : ptr :=
  if p =? 4096 then 8192 else if p =? 64 then 4096 else 0.

Definition encap_ovpn : Z := 100.

End Sample.


(** ** Detaching a socket *)

(** The configuration [ovpn_udp_socket_detach] passes: all members zero. *)
Definition empty_cfg : udp_tunnel_sock_cfg :=
  {| cfg_sk_user_data := NULL; cfg_encap_type := 0;
     cfg_encap_rcv := Encap_rcv_none;
     cfg_encap_err_lookup := NULL; cfg_encap_destroy := NULL;
     cfg_gro_receive := NULL; cfg_gro_complete := NULL |}.

(** [sockfd_put(sock)] is [fput(sock->file)]: the file's reference count, an
    [atomic_long_t], goes down by one ([atomic_long_dec_and_test]). *)
Definition sockfd_put (f_count : Z) : Z := to_long (f_count - 1).

(** [fput] releases the file, and with it the socket, when the count it has
    decremented is zero. *)
Definition file_released (f_count : Z) : bool := f_count =? 0.

(** [ovpn_udp_socket_detach]: the socket as the call leaves it, and the
    reference count of its file. *)
Definition ovpn_udp_socket_detach (sock : socket) (f_count : Z)
    : socket * Z :=
  (setup_udp_tunnel_sock sock empty_cfg, sockfd_put f_count).

(** ** The compatibility header (linux-compat.h) *)

Definition to_u32 (x : Z) : Z := x mod 2 ^ 32.
Definition to_u64 (x : Z) : Z := x mod 2 ^ 64.

(** [struct pcpu_sw_netstats]: four [u64] counters.  On a 64-bit kernel the
    [u64_stats_update_begin]/[end] pair around the updates is empty. *)
Record pcpu_sw_netstats := mk_netstats {
  rx_packets : Z;
  rx_bytes : Z;
  tx_packets : Z;
  tx_bytes : Z
}.

(** [dev->tstats]: one counter block per CPU. *)
Definition tstats := nat -> pcpu_sw_netstats.

(** An update through [this_cpu_ptr(dev->tstats)] on CPU [cpu]. *)
Definition this_cpu_update (cpu : nat)
    (f : pcpu_sw_netstats -> pcpu_sw_netstats) (t : tstats) : tstats :=
  fun c => if Nat.eqb c cpu then f (t c) else t c.

(** [dev_sw_netstats_tx_add(dev, packets, len)]; both arguments are
    [unsigned int]. *)
Definition dev_sw_netstats_tx_add (cpu : nat) (t : tstats) (packets len : Z)
    : tstats :=
  this_cpu_update cpu
    (fun s => {| rx_packets := rx_packets s; rx_bytes := rx_bytes s;
                 tx_packets := to_u64 (tx_packets s + to_u32 packets);
                 tx_bytes := to_u64 (tx_bytes s + to_u32 len) |}) t.

(** [dev_sw_netstats_rx_add(dev, len)]. *)
Definition dev_sw_netstats_rx_add (cpu : nat) (t : tstats) (len : Z)
    : tstats :=
  this_cpu_update cpu
    (fun s => {| rx_packets := to_u64 (rx_packets s + 1);
                 rx_bytes := to_u64 (rx_bytes s + to_u32 len);
                 tx_packets := tx_packets s; tx_bytes := tx_bytes s |}) t.

(** What a sequence of [unsigned int] arguments adds up to. *)
Definition sum_u32 (l : list Z) : Z :=
  fold_right (fun x acc => to_u32 x + acc) 0 l.

(** The counters of a block are [u64] values. *)
Definition netstats_wf (s : pcpu_sw_netstats) : Prop :=
  0 <= rx_packets s < 2 ^ 64 /\ 0 <= rx_bytes s < 2 ^ 64 /\
  0 <= tx_packets s < 2 ^ 64 /\ 0 <= tx_bytes s < 2 ^ 64.

Section SkbListWalk.
(** [skb_list_walk_safe(first, skb, next_skb)] over an abstract memory [mem]:
    [next_of m p] is [p->next], [body skb m] is the loop body run on [skb].
    The loop is
    [for (skb = first, next_skb = skb ? skb->next : NULL; skb;
          skb = next_skb, next_skb = skb ? skb->next : NULL)]. *)
Variable mem : Type.
Variable next_of : mem -> ptr -> ptr.
Variable body : ptr -> mem -> mem.

(** The loop from its test on; [fuel] bounds the number of tests. *)
Fixpoint skb_list_walk_safe_from (fuel : nat) (skb next_skb : ptr) (m : mem)
    : option mem :=
  match fuel with
  | O => None
  | S fuel' =>
      if skb =? NULL then Some m
      else
        let m := body skb m in
        let skb := next_skb in
        let next_skb := if skb =? NULL then NULL else next_of m skb in
        skb_list_walk_safe_from fuel' skb next_skb m
  end.

Definition skb_list_walk_safe (fuel : nat) (first : ptr) (m : mem)
    : option mem :=
  skb_list_walk_safe_from fuel first
    (if first =? NULL then NULL else next_of m first) m.

(** [p] heads the [NULL]-terminated list of the buffers [l] in [m]. *)
Fixpoint skb_chain (m : mem) (p : ptr) (l : list ptr) : Prop :=
  match l with
  | [] => p = NULL
  | x :: l' => p = x /\ x <> NULL /\ skb_chain m (next_of m x) l'
  end.

(** The body run on [x] leaves the [next] pointer of every other buffer
    alone; it may do what it likes with [x->next]. *)
Definition body_local : Prop :=
  forall x y m, y <> x -> next_of (body x m) y = next_of m y.

End SkbListWalk.

(** ** More vocabulary *)

Definition is_rcu (e : event) : bool :=
  match e with
  | Ev_rcu_read_lock => true
  | Ev_rcu_read_unlock => true
  | _ => false
  end.

(** The events that read or write what the read-side critical section
    protects: the keepalive note, the route cache, the lookups, the
    transmit. *)
Definition is_protected (e : event) : bool :=
  match e with
  | Ev_ovpn_peer_keepalive_xmit_reset _ => true
  | Ev_dst_cache_get _ => true
  | Ev_confirm_addr _ _ _ => true
  | Ev_dst_cache_reset => true
  | Ev_ip_route_output_flow _ _ => true
  | Ev_ipv6_dst_lookup_flow _ _ => true
  | Ev_dst_cache_set _ _ => true
  | Ev_udp_tunnel_xmit_skb _ _ _ _ _ _ _ _ => true
  | Ev_udp_tunnel6_xmit_skb _ _ _ _ _ _ _ _ _ => true
  | _ => false
  end.

(** The events that touch the route cache or the routing tables. *)
Definition is_route_event (e : event) : bool :=
  match e with
  | Ev_dst_cache_get _ => true
  | Ev_confirm_addr _ _ _ => true
  | Ev_dst_cache_reset => true
  | Ev_ip_route_output_flow _ _ => true
  | Ev_ipv6_dst_lookup_flow _ _ => true
  | Ev_dst_cache_set _ _ => true
  | _ => false
  end.

Definition is_route_lookup (e : event) : bool :=
  match e with
  | Ev_ip_route_output_flow _ _ => true
  | Ev_ipv6_dst_lookup_flow _ _ => true
  | _ => false
  end.

Definition is_cache_write (e : event) : bool :=
  match e with
  | Ev_dst_cache_reset => true
  | Ev_dst_cache_set _ _ => true
  | _ => false
  end.





(** The buffer an event disposes of: the one freed, or the one handed to
    the transmit primitive. *)
Definition disposed_skb (e : event) : option sk_buff :=
  match e with
  | Ev_kfree_skb s => Some s
  | Ev_udp_tunnel_xmit_skb _ s _ _ _ _ _ _ => Some s
  | Ev_udp_tunnel6_xmit_skb _ s _ _ _ _ _ _ _ => Some s
  | _ => None
  end.

Section EgressVocabulary2.
Context {ops : EgressOps}.

(** The cached route can be used as it is: there is an entry, and the
    source address recorded with it is confirmed on the local host. *)
Definition cache_usable4 (sk : sock) (cache : dst_cache) : Prop :=
  match cache with
  | None => False
  | Some e => dc_dst e <> NULL /\ inet_confirm_addr sk (dc_saddr e) <> 0
  end.

Definition cache_usable6 (sk : sock) (cache : dst_cache) : Prop :=
  match cache with
  | None => False
  | Some e => dc_dst e <> NULL /\ ipv6_chk_addr sk (dc_saddr e) <> 0
  end.

End EgressVocabulary2.

(** More sample inputs: a datagram split between linear area and fragment,
    per-CPU counters, a three-buffer list. *)
Module Sample2.

(** A datagram whose linear area stops inside the header prefix. *)
Definition split_datagram : sk_buff :=
  Sample.buffer (firstn 10 Sample.data_v2_peer7) (skipn 10 Sample.data_v2_peer7).

(** The collaborators of [Sample.ingress_ops], short of memory. *)
Definition ingress_ops_no_memory : IngressOps :=
  {| ovpn_from_udp_sock := @ovpn_from_udp_sock (Sample.ingress_ops 0 false);
     OVPN_DATA_V2 := 9;
     ovpn_opcode_from_skb := @ovpn_opcode_from_skb (Sample.ingress_ops 0 false);
     ovpn_peer_id_from_skb := @ovpn_peer_id_from_skb (Sample.ingress_ops 0 false);
     ovpn_peer_lookup_id := @ovpn_peer_lookup_id (Sample.ingress_ops 0 false);
     ovpn_peer_lookup_transp_addr :=
       @ovpn_peer_lookup_transp_addr (Sample.ingress_ops 0 false);
     ovpn_recv := @ovpn_recv (Sample.ingress_ops 0 false);
     pskb_expand_head_ok := fun _ _ => false |}.

Definition cached_route : dst_cache :=
  Some {| dc_dst := Sample.route4; dc_saddr := Sample.local4 |}.

Definition peer4 : ovpn_peer :=
  Sample.peer_with (Some Sample.transport)
    (Some (Sample.bind_to AF_INET Sample.remote4)).

Definition counters0 : tstats :=
  fun _ => {| rx_packets := 0; rx_bytes := 0; tx_packets := 0; tx_bytes := 0 |}.

(** Three buffers at 16, 32 and 48, linked in that order. *)
Definition list_next (m : ptr -> ptr) (p : ptr) : ptr := m p.

Definition three_buffers (p : ptr) : ptr :=
  if p =? 16 then 32 else if p =? 32 then 48 else NULL.

(** A body that takes the buffer off the list: [skb->next = NULL]. *)
Definition unlink (x : ptr) (m : ptr -> ptr) : ptr -> ptr :=
  fun p => if p =? x then NULL else m p.

End Sample2.


(** * Properties *)

(** ** Error pointers *)

(** An error pointer decodes to a negative [int]. *)
Lemma IS_ERR_negative p : IS_ERR p = true -> to_int (PTR_ERR p) < 0.
Proof.
  unfold IS_ERR, PTR_ERR, to_int, to_long, to_ulong, MAX_ERRNO, BITS_PER_LONG.
  change (2 ^ (64 - 1)) with 9223372036854775808.
  change (2 ^ 64) with 18446744073709551616.
  change (2 ^ 32) with 4294967296.
  change (2 ^ 31) with 2147483648.
  intros H. apply Z.leb_le in H.
  change (- (4095) mod 18446744073709551616) with 18446744073709547521 in H.
  assert (Hu : 0 <= p mod 18446744073709551616 < 18446744073709551616)
    by (apply Z.mod_pos_bound; lia).
  set (u := p mod 18446744073709551616) in *.
  assert (Hlt : (u <? 9223372036854775808) = false) by (apply Z.ltb_ge; lia).
  rewrite Hlt.
  assert (Hm : (u - 18446744073709551616) mod 4294967296 =
               u - 18446744073709551616 + 4294967296).
  { symmetry. apply (Z.mod_unique _ _ (-1)); lia. }
  rewrite Hm.
  assert (Hge : (u - 18446744073709551616 + 4294967296 <? 2147483648) = false)
    by (apply Z.ltb_ge; lia).
  rewrite Hge. lia.
Qed.

Example ERR_PTR_is_error : IS_ERR (ERR_PTR (- EHOSTUNREACH)) = true.
Proof. reflexivity. Qed.

Example ERR_PTR_roundtrip : to_int (PTR_ERR (ERR_PTR (- EHOSTUNREACH))) = - EHOSTUNREACH.
Proof. reflexivity. Qed.

(** ** Ingress *)

Section IngressFacts.
Context {ops : IngressOps}.

Ltac unfold_pull :=
  unfold may_pull, pulled, pskb_may_pull, __pskb_pull_tail, start,
    bind, get_skb, put_skb, ret; cbn.

(** [pskb_may_pull] touches neither the route cache nor the trace. *)
Lemma pskb_may_pull_run len skb c tr :
  pskb_may_pull len (mk_machine skb c tr) =
  (may_pull skb len, mk_machine (pulled skb len) c tr).
Proof.
  unfold_pull.
  destruct (len <=? skb_headlen skb); cbn; [reflexivity|].
  destruct (skb_len skb <? len); cbn; [reflexivity|].
  destruct (pskb_expand_head_ok skb (len - skb_headlen skb)); reflexivity.
Qed.

(** Whether it succeeds or not, [pskb_may_pull] keeps the datagram. *)
Lemma pulled_same_datagram skb len : skb_same_datagram (pulled skb len) skb.
Proof.
  unfold skb_same_datagram, skb_bytes. unfold_pull.
  destruct (len <=? skb_headlen skb); cbn; [tauto|].
  destruct (skb_len skb <? len); cbn; [tauto|].
  destruct (pskb_expand_head_ok skb (len - skb_headlen skb)); cbn; [|tauto].
  rewrite <- app_assoc, firstn_skipn. tauto.
Qed.

(** After a successful [pskb_may_pull] the linear area holds [len] bytes. *)
Lemma may_pull_headlen skb len :
  may_pull skb len = true -> len <= skb_headlen (pulled skb len).
Proof.
  unfold_pull.
  destruct (len <=? skb_headlen skb) eqn:E1; cbn; [intros _; lia|].
  destruct (skb_len skb <? len) eqn:E2; cbn; [discriminate|].
  destruct (pskb_expand_head_ok skb (len - skb_headlen skb)); cbn;
    [|discriminate].
  intros _. unfold skb_len, skb_data_len, skb_headlen in *. cbn.
  rewrite length_app, length_firstn. lia.
Qed.

(** A buffer shorter than [len] cannot be pulled, and is left as it was. *)
Lemma may_pull_short skb len :
  skb_len skb < len -> may_pull skb len = false /\ pulled skb len = skb.
Proof.
  intros Hlen. unfold_pull.
  assert (H1 : (len <=? skb_headlen skb) = false).
  { unfold skb_len, skb_data_len in Hlen. lia. }
  assert (H2 : (skb_len skb <? len) = true) by lia.
  rewrite H1; cbn. rewrite H2. split; reflexivity.
Qed.

(** Popping the UDP header off a pulled buffer leaves the datagram's bytes
    from the ninth on. *)
Lemma pull_header_bytes skb :
  may_pull skb 12 = true ->
  skb_bytes (skb_pull_bytes (pulled skb 12) sizeof_udphdr) =
  skipn 8 (skb_bytes skb).
Proof.
  intros Hp. apply may_pull_headlen in Hp.
  destruct (pulled_same_datagram skb 12) as [Hb _]. rewrite <- Hb.
  unfold skb_bytes, skb_pull_bytes, skb_headlen, set_head_frags in *.
  cbn [skb_head skb_frags].
  change (Z.to_nat sizeof_udphdr) with 8%nat.
  rewrite skipn_app.
  replace (8 - length (skb_head (pulled skb 12)))%nat with 0%nat by lia.
  reflexivity.
Qed.

Local Opaque pskb_may_pull.

Ltac run_ingress :=
  change min_ingress_len with 12 in *;
  unfold handle_ingress, ovpn_udp_encap_recv, deliver, drop, recv, lookup_id,
    lookup_transp_addr, kfree_skb, __skb_pull, pr, emit, get_skb, put_skb,
    bind, ret, start; cbn.

Ltac split_if :=
  match goal with
  | |- context [if ?c then _ else _] => destruct c eqn:?; cbn
  end.

(** One goal per path through [ovpn_udp_encap_recv]. *)
Ltac paths sk skb :=
  run_ingress;
  destruct (ovpn_from_udp_sock sk =? NULL) eqn:Hdev; cbn;
  [ | rewrite pskb_may_pull_run;
      destruct (may_pull skb 12) eqn:Hpull; cbn;
      [ repeat split_if | ] ].

Ltac props :=
  repeat match goal with
         | H : (_ =? _) = true |- _ => apply Z.eqb_eq in H
         | H : (_ =? _) = false |- _ => apply Z.eqb_neq in H
         | H : (_ <? _) = true |- _ => apply Z.ltb_lt in H
         | H : (_ <? _) = false |- _ => apply Z.ltb_ge in H
         | H : (_ <=? _) = true |- _ => apply Z.leb_le in H
         | H : (_ <=? _) = false |- _ => apply Z.leb_gt in H
         end.

Ltac in_trace H :=
  repeat (destruct H as [H|H]; try discriminate; try contradiction).

(** C1 (amended).  Whenever [ovpn_udp_encap_recv] invokes the receive
    pipeline, it returns the pipeline's status if that status is not
    negative; a negative status is not propagated: the function then logs
    it, releases the peer, frees the buffer and returns 0. *)
Theorem encap_recv_status_of_pipeline sk skb o p s :
  In (Ev_ovpn_recv o p s) (m_trace (snd (handle_ingress sk skb))) ->
  let r := handle_ingress sk skb in
  fst r = (if ovpn_recv o p s <? 0 then 0 else ovpn_recv o p s) /\
  (ovpn_recv o p s < 0 ->
     In (Ev_diag (Diag_cannot_handle_incoming (ovpn_recv o p s)))
        (m_trace (snd r)) /\
     In (Ev_ovpn_peer_put p) (m_trace (snd r)) /\
     In (Ev_kfree_skb s) (m_trace (snd r))).
Proof.
  cbv zeta.
  paths sk skb; intros H; in_trace H; inversion H; subst; props;
    (split; [congruence || lia | intros Hneg; try lia; cbn; auto 10]).
Qed.

(** The peer-reference accounting of the ingress path, for a handle [p]:
    at most one lookup returns it, every such lookup is followed by exactly
    one hand-off to the pipeline, and [ovpn_peer_put] is called on it
    exactly when the pipeline answered that hand-off with a negative
    status. *)
Lemma encap_recv_reference_accounting sk skb p :
  p <> NULL ->
  let tr := m_trace (snd (handle_ingress sk skb)) in
  (count (is_lookup_of p) tr <= 1)%nat /\
  count (is_recv_of p) tr = count (is_lookup_of p) tr /\
  count (is_put_of p) tr = count (is_rejected_recv_of p) tr /\
  releases p tr = count (is_lookup_of p) tr.
Proof.
  intros Hp. cbv zeta. unfold releases, count.
  paths sk skb; repeat split_if; props;
    try (repeat split; cbn; lia); try congruence; try lia.
Qed.

(** Not-consumed returns.  When [ovpn_udp_encap_recv] returns a non-zero
    value, the value is positive and the function has not freed the buffer;
    when moreover the receive pipeline was not invoked, the value is 1 and
    the buffer still holds the whole datagram, UDP header included. *)
Theorem encap_recv_not_consumed sk skb :
  let r := handle_ingress sk skb in
  fst r <> 0 ->
  0 < fst r /\
  count is_kfree_skb (m_trace (snd r)) = 0%nat /\
  (count is_ovpn_recv (m_trace (snd r)) = 0%nat ->
     fst r = 1 /\ skb_same_datagram (m_skb (snd r)) skb).
Proof.
  cbv zeta. pose proof (pulled_same_datagram skb 12) as Hsame.
  paths sk skb; intros Hret; try congruence; cbn;
    repeat split; try reflexivity; try lia; try discriminate; try apply Hsame.
Qed.

(** X3.  A datagram with another opcode than DATA_V2 whose source address
    matches no peer is left to the UDP stack: the function returns 1, the
    buffer holds the whole datagram, nothing is freed and the pipeline is
    not called. *)
Lemma encap_recv_foreign_datagram sk skb :
  ovpn_from_udp_sock sk <> NULL ->
  may_pull skb min_ingress_len = true ->
  ovpn_opcode_from_skb (pulled skb min_ingress_len) sizeof_udphdr
    <> OVPN_DATA_V2 ->
  ovpn_peer_lookup_transp_addr (ovpn_from_udp_sock sk)
    (pulled skb min_ingress_len) = NULL ->
  let r := handle_ingress sk skb in
  fst r = 1 /\
  skb_same_datagram (m_skb (snd r)) skb /\
  count is_kfree_skb (m_trace (snd r)) = 0%nat /\
  count is_ovpn_recv (m_trace (snd r)) = 0%nat.
Proof.
  intros Hdev' Hpull' Hop Hpeer. cbv zeta.
  pose proof (pulled_same_datagram skb 12) as Hsame.
  apply Z.eqb_neq in Hop. apply Z.eqb_neq in Hdev'.
  run_ingress. rewrite Hdev'; cbn.
  rewrite pskb_may_pull_run, Hpull'; cbn. rewrite Hop; cbn.
  rewrite Hpeer; cbn. auto.
Qed.

(** C8.  A datagram whose header prefix is present and carries the DATA_V2
    opcode, received on a socket bound to a device context: when the peer
    directory knows the peer id, the receive pipeline is called exactly
    once, with the resolved peer and the buffer stripped of the UDP header;
    when it does not, the datagram is dropped (freed, return 0, pipeline not
    called) with the unknown-peer diagnostic. *)
Theorem encap_recv_data_v2 sk skb :
  ovpn_from_udp_sock sk <> NULL ->
  may_pull skb min_ingress_len = true ->
  ovpn_opcode_from_skb (pulled skb min_ingress_len) sizeof_udphdr
    = OVPN_DATA_V2 ->
  let ovpn := ovpn_from_udp_sock sk in
  let hdr := pulled skb min_ingress_len in
  let id := ovpn_peer_id_from_skb hdr sizeof_udphdr in
  let peer := ovpn_peer_lookup_id ovpn id in
  let r := handle_ingress sk skb in
  (peer <> NULL ->
     filter is_ovpn_recv (m_trace (snd r)) =
       [Ev_ovpn_recv ovpn peer (skb_pull_bytes hdr sizeof_udphdr)] /\
     skb_bytes (skb_pull_bytes hdr sizeof_udphdr) = skipn 8 (skb_bytes skb)) /\
  (peer = NULL ->
     fst r = 0 /\
     filter is_kfree_skb (m_trace (snd r)) = [Ev_kfree_skb hdr] /\
     skb_same_datagram hdr skb /\
     count is_ovpn_recv (m_trace (snd r)) = 0%nat /\
     In (Ev_diag (Diag_unknown_peer_id id)) (m_trace (snd r))).
Proof.
  intros Hdev' Hpull' Hop. cbv zeta.
  pose proof (pulled_same_datagram skb 12) as Hsame.
  pose proof (pull_header_bytes skb) as Hbytes.
  apply Z.eqb_eq in Hop. apply Z.eqb_neq in Hdev'.
  run_ingress. rewrite Hdev'; cbn.
  rewrite pskb_may_pull_run, Hpull'; cbn. rewrite Hop; cbn.
  split; intros Hpeer.
  - apply Z.eqb_neq in Hpeer. rewrite Hpeer; cbn.
    split_if; auto.
  - rewrite Hpeer; cbn. auto 10.
Qed.

(** C9.  A datagram shorter than the UDP header plus the four-byte prefix is
    dropped: [ovpn_udp_encap_recv] returns 0, frees the datagram (once), and
    calls neither peer lookup. *)
Theorem encap_recv_truncated sk skb :
  skb_len skb < min_ingress_len ->
  let r := handle_ingress sk skb in
  fst r = 0 /\
  filter is_kfree_skb (m_trace (snd r)) = [Ev_kfree_skb skb] /\
  count is_peer_lookup (m_trace (snd r)) = 0%nat.
Proof.
  intros Hlen. destruct (may_pull_short _ _ Hlen) as [Hm Hp].
  run_ingress.
  destruct (ovpn_from_udp_sock sk =? NULL); cbn.
  - auto.
  - rewrite pskb_may_pull_run, Hm, Hp. cbn. auto.
Qed.

Local Transparent pskb_may_pull.

(** A failed [pskb_may_pull] leaves the buffer as it was. *)
Lemma may_pull_false_unchanged skb len :
  may_pull skb len = false -> pulled skb len = skb.
Proof.
  unfold_pull.
  destruct (len <=? skb_headlen skb); cbn; [discriminate|].
  destruct (skb_len skb <? len); cbn; [reflexivity|].
  destruct (pskb_expand_head_ok skb (len - skb_headlen skb)); cbn;
    [discriminate | reflexivity].
Qed.

(** A pull that needs memory and gets none fails. *)
Lemma may_pull_no_memory skb len :
  skb_headlen skb < len <= skb_len skb ->
  pskb_expand_head_ok skb (len - skb_headlen skb) = false ->
  may_pull skb len = false.
Proof.
  intros [Hh Hl] Hmem. unfold_pull.
  assert (H1 : (len <=? skb_headlen skb) = false) by lia.
  assert (H2 : (skb_len skb <? len) = false) by lia.
  rewrite H1; cbn. rewrite H2; cbn. rewrite Hmem. reflexivity.
Qed.

Local Opaque pskb_may_pull.

(** X1.  On a socket from which no device context can be obtained every
    datagram, whatever it holds, is dropped unseen: the function returns 0,
    frees the buffer as it came, and neither pulls, nor looks a peer up,
    nor calls the pipeline. *)
Theorem encap_recv_no_device sk skb :
  ovpn_from_udp_sock sk = NULL ->
  handle_ingress sk skb =
    (0, {| m_skb := skb; m_cache := None;
           m_trace := [Ev_diag Diag_no_ovpn_object; Ev_kfree_skb skb] |}).
Proof.
  intros H. run_ingress. rewrite H. reflexivity.
Qed.

(** X2.  A datagram that is long enough but whose header prefix is not in
    the linear area is dropped when the pull cannot get memory: return 0,
    the buffer freed as it came, no lookup and no hand-off. *)
Theorem encap_recv_pull_no_memory sk skb :
  ovpn_from_udp_sock sk <> NULL ->
  skb_headlen skb < min_ingress_len <= skb_len skb ->
  pskb_expand_head_ok skb (min_ingress_len - skb_headlen skb) = false ->
  handle_ingress sk skb =
    (0, {| m_skb := skb; m_cache := None;
           m_trace := [Ev_diag Diag_packet_too_small; Ev_kfree_skb skb] |}).
Proof.
  intros Hdev' Hlen Hmem.
  pose proof (may_pull_no_memory _ _ Hlen Hmem) as Hm.
  pose proof (may_pull_false_unchanged _ _ Hm) as Hp.
  apply Z.eqb_neq in Hdev'.
  run_ingress. rewrite Hdev'; cbn.
  rewrite pskb_may_pull_run, Hm, Hp. reflexivity.
Qed.

(** X4.  A datagram with another opcode than DATA_V2 whose source address
    matches a peer goes to the pipeline like tunnel data: one call, with
    the peer found by address and the buffer stripped of the UDP header;
    the peer id in the prefix is not looked up. *)
Theorem encap_recv_control_known_peer sk skb :
  ovpn_from_udp_sock sk <> NULL ->
  may_pull skb min_ingress_len = true ->
  ovpn_opcode_from_skb (pulled skb min_ingress_len) sizeof_udphdr
    <> OVPN_DATA_V2 ->
  let ovpn := ovpn_from_udp_sock sk in
  let hdr := pulled skb min_ingress_len in
  let peer := ovpn_peer_lookup_transp_addr ovpn hdr in
  let tr := m_trace (snd (handle_ingress sk skb)) in
  peer <> NULL ->
  filter is_ovpn_recv tr =
    [Ev_ovpn_recv ovpn peer (skb_pull_bytes hdr sizeof_udphdr)] /\
  filter is_peer_lookup tr = [Ev_ovpn_peer_lookup_transp_addr ovpn hdr peer] /\
  skb_bytes (skb_pull_bytes hdr sizeof_udphdr) = skipn 8 (skb_bytes skb).
Proof.
  intros Hdev' Hpull' Hop. cbv zeta. intros Hpeer.
  pose proof (pull_header_bytes skb) as Hbytes.
  apply Z.eqb_neq in Hop. apply Z.eqb_neq in Hdev'. apply Z.eqb_neq in Hpeer.
  run_ingress. rewrite Hdev'; cbn.
  rewrite pskb_may_pull_run, Hpull'; cbn. rewrite Hop; cbn.
  rewrite Hpeer; cbn. split_if; auto.
Qed.

(** X5.  A datagram triggers at most one peer lookup, and the opcode alone
    chooses its kind: by the peer id of the prefix when, and only when, the
    opcode is DATA_V2; by transport address otherwise. *)
Theorem encap_recv_one_lookup sk skb :
  let ovpn := ovpn_from_udp_sock sk in
  let hdr := pulled skb min_ingress_len in
  let looked := filter is_peer_lookup (m_trace (snd (handle_ingress sk skb))) in
  looked = [] \/
  (ovpn_opcode_from_skb hdr sizeof_udphdr = OVPN_DATA_V2 /\
   looked = [Ev_ovpn_peer_lookup_id ovpn
               (ovpn_peer_id_from_skb hdr sizeof_udphdr)
               (ovpn_peer_lookup_id ovpn
                  (ovpn_peer_id_from_skb hdr sizeof_udphdr))]) \/
  (ovpn_opcode_from_skb hdr sizeof_udphdr <> OVPN_DATA_V2 /\
   looked = [Ev_ovpn_peer_lookup_transp_addr ovpn hdr
               (ovpn_peer_lookup_transp_addr ovpn hdr)]).
Proof.
  cbv zeta. paths sk skb; props; auto.
Qed.

(** X6.  Whatever buffer the pipeline is handed holds the datagram without
    its first eight bytes, with at least the four bytes of the prefix in
    the linear area and the metadata as received; the peer handed along is
    never [NULL] and was returned by the lookup of this very call. *)
Theorem encap_recv_handoff_buffer sk skb o p s :
  let tr := m_trace (snd (handle_ingress sk skb)) in
  In (Ev_ovpn_recv o p s) tr ->
  o = ovpn_from_udp_sock sk /\
  p <> NULL /\
  count (is_lookup_of p) tr = 1%nat /\
  4 <= skb_headlen s /\
  skb_bytes s = skipn 8 (skb_bytes skb) /\
  skb_dev s = skb_dev skb /\ skb_ip_summed s = skb_ip_summed skb /\
  skb_destructor s = skb_destructor skb /\ skb_sk s = skb_sk skb.
Proof.
  cbv zeta.
  pose proof (pull_header_bytes skb) as Hbytes.
  pose proof (may_pull_headlen skb 12) as Hlen.
  destruct (pulled_same_datagram skb 12) as (_ & Hd & Hs & Hx & Hk).
  assert (Hhead : may_pull skb 12 = true ->
                  4 <= skb_headlen (skb_pull_bytes (pulled skb 12) sizeof_udphdr)).
  { intros Hm. specialize (Hlen Hm).
    unfold skb_headlen, skb_pull_bytes, set_head_frags in *. cbn [skb_head].
    change (Z.to_nat sizeof_udphdr) with 8%nat. rewrite length_skipn. lia. }
  unfold count.
  paths sk skb; intros H; in_trace H; inversion H; subst; props;
    try congruence;
    specialize (Hbytes eq_refl); specialize (Hhead eq_refl);
    repeat split;
    first [assumption | reflexivity | exact Hbytes | exact Hhead].
Qed.

(** X7.  Every datagram is disposed of in exactly one of three ways: dropped
    before any hand-off (return 0, freed once), left to the UDP stack
    (return 1, neither freed nor handed over), or handed to the pipeline
    once, after which it is freed exactly when the pipeline's status is
    negative.  The function never returns a negative value and never frees
    a buffer twice. *)
Theorem encap_recv_disposal sk skb :
  let r := handle_ingress sk skb in
  let tr := m_trace (snd r) in
  (fst r = 0 /\ count is_kfree_skb tr = 1%nat /\ count is_ovpn_recv tr = 0%nat) \/
  (fst r = 1 /\ count is_kfree_skb tr = 0%nat /\ count is_ovpn_recv tr = 0%nat) \/
  (exists o p s,
      filter is_ovpn_recv tr = [Ev_ovpn_recv o p s] /\
      ((ovpn_recv o p s < 0 /\ fst r = 0 /\ count is_kfree_skb tr = 1%nat) \/
       (0 <= ovpn_recv o p s /\ fst r = ovpn_recv o p s /\
        count is_kfree_skb tr = 0%nat))).
Proof.
  cbv zeta. unfold count.
  paths sk skb; props; auto;
    right; right; do 3 eexists; (split; [reflexivity|]); auto.
Qed.

End IngressFacts.

(** ** Egress *)

Section EgressFacts.
Context {ops : EgressOps}.

Local Opaque IS_ERR PTR_ERR to_int.

Ltac run_egress :=
  unfold send, ovpn_udp_send_skb, ovpn_udp_send_skb_ret, ovpn_udp_output,
    ovpn_udp4_output, ovpn_udp6_output, transmit4, transmit6, confirm4,
    confirm6, dst_cache_get, dst_cache_reset, dst_cache_set, kfree_skb, pr,
    emit, get_skb, put_skb, get_cache, put_cache, bind, ret, start; cbn.

Ltac split_if :=
  match goal with
  | |- context [if ?c then _ else _] => destruct c eqn:?; cbn
  end.

Ltac err_neg :=
  match goal with
  | H : IS_ERR ?p = true |- context [to_int (PTR_ERR ?p) <? 0] =>
      rewrite (proj2 (Z.ltb_lt _ _) (IS_ERR_negative _ H)); cbn
  end.

(** One goal per path through [ovpn_udp_send_skb]. *)
Ltac egress_paths peer cache :=
  let s := fresh "s" in let b := fresh "b" in
  destruct peer as [? [s] b]; destruct s as [s|]; [destruct b as [b|]|];
  run_egress;
  [ destruct cache as [[? ?]|]; cbn; repeat (first [err_neg | split_if]) | | ].

Ltac bools :=
  repeat match goal with
         | H : (_ =? _) = true |- _ => apply Z.eqb_eq in H
         | H : (_ =? _) = false |- _ => apply Z.eqb_neq in H
         | H : (_ && _) = true |- _ => apply andb_true_iff in H; destruct H
         | H : (_ || _) = false |- _ => apply orb_false_iff in H; destruct H
         | H : negb _ = true |- _ => apply negb_true_iff in H
         | H : negb _ = false |- _ => apply negb_false_iff in H
         end.

(** Brings what is known about the peer, the binding and the cache into the
    form the path conditions have. *)
Ltac known :=
  cbn in *;
  repeat match goal with
         | H : Some _ = Some _ |- _ => injection H as H; subst
         | H : Some _ = None |- _ => discriminate H
         | H : None = Some _ |- _ => discriminate H
         end;
  unfold family_supported, cache_unusable4, cache_unusable6, flow4_init,
    flow6_init, set_fl4_saddr, set_fl6_saddr in *; cbn in *;
  bools;
  repeat match goal with
         | H : CONFIG_IPV6 = _, H' : context [CONFIG_IPV6] |- _ =>
             rewrite H in H'; cbn in H'
         | H : sin_family ?b = _, H' : context [sin_family ?b =? _] |- _ =>
             rewrite H in H'; cbn in H'
         end;
  bools.

Ltac impossible :=
  try discriminate; try congruence;
  try (exfalso; intuition congruence);
  try (unfold AF_INET, AF_INET6 in *; lia).

(** The transmitter disposes of the datagram exactly once, by freeing it or
    by handing it to the tunnel transmit primitive, and frees nothing else. *)
Lemma send_skb_disposes_once ovpn peer skb cache :
  let tr := m_trace (send ovpn peer skb cache) in
  (count is_kfree_skb tr + count is_xmit tr = 1)%nat /\
  (forall s, In (Ev_kfree_skb s) tr -> skb_bytes s = skb_bytes skb).
Proof.
  cbv zeta. split.
  - egress_paths peer cache; reflexivity.
  - intros s0. egress_paths peer cache; intros H;
      repeat (destruct H as [H|H]; try discriminate; try contradiction);
      inversion H; reflexivity.
Qed.

Lemma send_skb_fails_frees ovpn peer skb cache :
  send_fails peer cache ->
  let tr := m_trace (send ovpn peer skb cache) in
  count is_kfree_skb tr = 1%nat /\ count is_xmit tr = 0%nat.
Proof.
  intros Hf. cbv zeta.
  destruct Hf as [Hs | Hb | b Hb Hfam | sock b Hs Hb Hfam Hc Herr
                 | sock b Hs Hb H6 Hfam Hc Herr];
    egress_paths peer cache; known; impossible; split; reflexivity.
Qed.

(** X8.  The output routines never free: a route-lookup failure of
    [ovpn_udp4_output] or [ovpn_udp6_output] leaves the buffer to the
    caller, and so does every other way [ovpn_udp_output] returns. *)
Lemma udp_output_never_frees ovpn b sk m :
  count is_kfree_skb (m_trace m) = 0%nat ->
  count is_kfree_skb (m_trace (snd (ovpn_udp_output ovpn b sk m))) = 0%nat.
Proof.
  destruct m as [skb cache tr]. unfold count. cbn. intros Htr.
  unfold ovpn_udp_output, ovpn_udp4_output, ovpn_udp6_output, transmit4,
    transmit6, confirm4, confirm6, dst_cache_get, dst_cache_reset,
    dst_cache_set, pr, emit, get_skb, put_skb, get_cache, put_cache, bind,
    ret; cbn.
  destruct cache as [[? ?]|]; cbn; repeat split_if;
    repeat (rewrite filter_app, length_app; cbn); lia.
Qed.

(** C3.  On every failure path of [ovpn_udp_send_skb] (no socket, no
    published binding, unsupported address family, route lookup failure)
    the transmitter itself frees the datagram exactly once and transmits
    nothing; on every path, failing or not, the datagram is disposed of
    exactly once (freed, or handed to the transmit primitive), and nothing
    but the datagram is freed. *)
Theorem send_skb_frees_on_failure ovpn peer skb cache :
  let tr := m_trace (send ovpn peer skb cache) in
  (send_fails peer cache ->
     count is_kfree_skb tr = 1%nat /\ count is_xmit tr = 0%nat) /\
  (count is_kfree_skb tr + count is_xmit tr = 1)%nat /\
  (forall s, In (Ev_kfree_skb s) tr -> skb_bytes s = skb_bytes skb).
Proof.
  cbv zeta. split.
  - apply send_skb_fails_frees.
  - apply send_skb_disposes_once.
Qed.

Ltac cut_at n :=
  match goal with
  | |- exists pre post, ?tr = _ /\ _ =>
      exists (firstn n tr), (skipn (2 + n) tr); cbn;
      split; [reflexivity|]
  end.

Ltac post_events :=
  let e := fresh "e" in let He := fresh "He" in let Hx := fresh "Hx" in
  intros e He Hx;
  repeat (destruct He as [He|He]; [subst e; cbn in Hx; try discriminate|]);
  try contradiction; try (split; reflexivity).

Ltac fresh_route :=
  first [cut_at 3%nat | cut_at 4%nat];
  repeat match goal with
         | H : IS_ERR _ = _ |- _ => rewrite H
         end;
  (split; [reflexivity | split; [post_events | split; reflexivity]]).

(** C5.  When [ovpn_udp_send_skb] reaches the route cache (socket and
    binding present, family IPv4 or, where built in, IPv6) and the cache has
    no entry or the entry's recorded source address is not confirmed
    locally, the trace splits around a cache reset immediately followed by
    a fresh route lookup on the flow with its source address cleared:
    nothing is transmitted before them, and whatever is transmitted after
    them uses the route and source address that lookup returned (one
    transmit when the lookup succeeds, none when it fails); the cache ends
    up empty or holding the fresh route.  On the paths that do not reach
    the route cache nothing is transmitted at all. *)
Theorem send_skb_unusable_cache_fresh_lookup ovpn peer skb cache :
  let m := send ovpn peer skb cache in
  (forall sock b,
      os_sock (peer_sock peer) = Some sock -> peer_bind peer = Some b ->
      sin_family b = AF_INET -> cache_unusable4 (sk sock) cache ->
      let fl := flow4_init b (sk sock) in
      let looked := ip_route_output_flow (sk sock) fl in
      exists pre post,
        m_trace m = pre ++ Ev_dst_cache_reset ::
                      Ev_ip_route_output_flow fl (fst looked) :: post /\
        count is_xmit pre = 0%nat /\
        (forall e, In e post -> is_xmit e = true ->
           xmit_route e = fst looked /\ xmit_saddr e = snd looked) /\
        count is_xmit post = (if IS_ERR (fst looked) then 0 else 1)%nat /\
        m_cache m =
          if IS_ERR (fst looked) then None
          else Some {| dc_dst := fst looked; dc_saddr := snd looked |}) /\
  (forall sock b,
      os_sock (peer_sock peer) = Some sock -> peer_bind peer = Some b ->
      CONFIG_IPV6 = true -> sin_family b = AF_INET6 ->
      cache_unusable6 (sk sock) cache ->
      let fl := flow6_init b (sk sock) in
      let looked := ipv6_dst_lookup_flow (sk sock) fl in
      exists pre post,
        m_trace m = pre ++ Ev_dst_cache_reset ::
                      Ev_ipv6_dst_lookup_flow fl (fst looked) :: post /\
        count is_xmit pre = 0%nat /\
        (forall e, In e post -> is_xmit e = true ->
           xmit_route e = fst looked /\ xmit_saddr e = snd looked) /\
        count is_xmit post = (if IS_ERR (fst looked) then 0 else 1)%nat /\
        m_cache m =
          if IS_ERR (fst looked) then None
          else Some {| dc_dst := fst looked; dc_saddr := snd looked |}) /\
  (os_sock (peer_sock peer) = None \/ peer_bind peer = None \/
   (exists b, peer_bind peer = Some b /\ family_supported b = false) ->
   count is_xmit (m_trace m) = 0%nat).
Proof.
  cbv zeta. split; [|split].
  - intros sock b Hs Hb Hfam Hc.
    egress_paths peer cache; known; impossible; fresh_route.
  - intros sock b Hs Hb H6 Hfam Hc.
    egress_paths peer cache; known; impossible; fresh_route.
  - intros [Hs | [Hb | [b [Hb Hfam]]]];
      egress_paths peer cache; known; impossible; reflexivity.
Qed.

(** C10.  [ovpn_udp_send_skb] notifies the keepalive subsystem exactly when
    the peer has a socket and a published binding, and then exactly once,
    whatever the outcome of the output routine that follows. *)
Theorem send_skb_keepalive_reset ovpn peer skb cache :
  filter is_keepalive (m_trace (send ovpn peer skb cache)) =
  match os_sock (peer_sock peer), peer_bind peer with
  | Some _, Some _ => [Ev_ovpn_peer_keepalive_xmit_reset (peer_id peer)]
  | _, _ => []
  end.
Proof.
  egress_paths peer cache; reflexivity.
Qed.

(** The egress path looks no peer up and releases none. *)
Lemma send_skb_no_peer_reference ovpn peer skb cache :
  let tr := m_trace (send ovpn peer skb cache) in
  count is_peer_lookup tr = 0%nat /\ count is_peer_put tr = 0%nat.
Proof.
  cbv zeta. egress_paths peer cache; split; reflexivity.
Qed.

Local Transparent IS_ERR PTR_ERR to_int.

(** An error pointer made from an errno decodes to that errno. *)
Lemma ERR_PTR_decodes e :
  1 <= e <= MAX_ERRNO ->
  IS_ERR (ERR_PTR (- e)) = true /\ to_int (PTR_ERR (ERR_PTR (- e))) = - e.
Proof.
  unfold IS_ERR, PTR_ERR, ERR_PTR, to_int, to_long, to_ulong, MAX_ERRNO,
    BITS_PER_LONG.
  change (2 ^ (64 - 1)) with 9223372036854775808.
  change (2 ^ 64) with 18446744073709551616.
  change (2 ^ 32) with 4294967296.
  change (2 ^ 31) with 2147483648.
  change (- (4095) mod 18446744073709551616) with 18446744073709547521.
  intros He.
  assert (H1 : - e mod 18446744073709551616 = 18446744073709551616 - e).
  { symmetry. apply (Z.mod_unique _ _ (-1)); lia. }
  rewrite H1.
  assert (H2 : (18446744073709551616 - e) mod 18446744073709551616
               = 18446744073709551616 - e).
  { apply Z.mod_small. lia. }
  rewrite H2. split; [apply Z.leb_le; lia|].
  assert (H3 : (18446744073709551616 - e <? 9223372036854775808) = false)
    by (apply Z.ltb_ge; lia).
  rewrite H3.
  replace (18446744073709551616 - e - 18446744073709551616) with (- e) by lia.
  assert (H4 : - e mod 4294967296 = 4294967296 - e).
  { symmetry. apply (Z.mod_unique _ _ (-1)); lia. }
  rewrite H4.
  assert (H5 : (4294967296 - e <? 2147483648) = false)
    by (apply Z.ltb_ge; lia).
  rewrite H5. lia.
Qed.

Local Opaque IS_ERR PTR_ERR to_int.

Ltac fails_here :=
  first
    [ solve [apply Fail_no_sock; reflexivity]
    | solve [apply Fail_no_bind; reflexivity]
    | solve [eapply Fail_family; [reflexivity|];
             unfold family_supported; cbn;
             repeat match goal with
                    | H : _ = true |- _ => rewrite H
                    | H : _ = false |- _ => rewrite H
                    end; reflexivity]
    | solve [eapply Fail_route4;
             [reflexivity | reflexivity
             | bools; assumption
             | cbn; bools; auto
             | assumption]]
    | solve [eapply Fail_route6;
             [reflexivity | reflexivity
             | bools; assumption
             | bools; assumption
             | cbn; bools; auto
             | assumption]] ].

(** X9.  The failure paths listed by [send_fails] are all there are: the
    datagram is transmitted, exactly once, if and only if none of them is
    taken. *)
Theorem send_skb_transmits_iff ovpn peer skb cache :
  count is_xmit (m_trace (send ovpn peer skb cache)) = 1%nat <->
  ~ send_fails peer cache.
Proof.
  split.
  - intros Hx Hf.
    destruct (send_skb_fails_frees ovpn peer skb cache Hf) as [_ H0].
    congruence.
  - intros Hnf.
    egress_paths peer cache; try reflexivity; exfalso; apply Hnf; fails_here.
Qed.


Ltac any_event H :=
  repeat (destruct H as [H|H]; [subst; cbn in *; try discriminate|]);
  try contradiction.

(** X10.  With a cached route whose recorded source address is still
    confirmed locally, the route is reused as it is: no route lookup, no
    write to the cache, and one transmit over the cached route from the
    cached source address. *)
Theorem send_skb_cached_route_reused ovpn peer skb cache :
  let m := send ovpn peer skb cache in
  forall sock b e,
    os_sock (peer_sock peer) = Some sock -> peer_bind peer = Some b ->
    cache = Some e ->
    (sin_family b = AF_INET /\ cache_usable4 (sk sock) cache) \/
    (CONFIG_IPV6 = true /\ sin_family b = AF_INET6 /\
     cache_usable6 (sk sock) cache) ->
    m_cache m = cache /\
    count is_route_lookup (m_trace m) = 0%nat /\
    count is_cache_write (m_trace m) = 0%nat /\
    count is_xmit (m_trace m) = 1%nat /\
    (forall x, In x (m_trace m) -> is_xmit x = true ->
       xmit_route x = dc_dst e /\ xmit_saddr x = dc_saddr e).
Proof.
  cbv zeta. intros sock b e Hs Hb He Hu. subst cache.
  unfold cache_usable4, cache_usable6 in Hu.
  destruct e as [d a]; cbn in Hu.
  destruct peer as [? [s] pb]; cbn in Hs, Hb; subst s pb.
  run_egress.
  destruct Hu as [(Hf & Hd & Hc) | (H6 & Hf & Hd & Hc)].
  - apply Z.eqb_neq in Hd. apply Z.eqb_neq in Hc.
    destruct (skb_destructor skb =? NULL); cbn;
      rewrite Hf; cbn; rewrite Hd; cbn; rewrite Hc; cbn;
      do 4 (split; [reflexivity|]);
      intros ev Hx Hq; any_event Hx; auto.
  - apply Z.eqb_neq in Hd. apply Z.eqb_neq in Hc.
    destruct (skb_destructor skb =? NULL); cbn;
      rewrite Hf, H6; cbn; rewrite Hd; cbn; rewrite Hc; cbn;
      do 4 (split; [reflexivity|]);
      intros ev Hx Hq; any_event Hx; auto.
Qed.


(** X12.  The buffer the transmitter frees or transmits is the datagram it
    was given: same bytes in the same layout, same destructor, with the
    tunnel device as its device and no checksum requested; a transmitted
    buffer that had no destructor also has its socket pointer cleared. *)
Theorem send_skb_buffer ovpn peer skb cache x s :
  In x (m_trace (send ovpn peer skb cache)) ->
  disposed_skb x = Some s ->
  skb_head s = skb_head skb /\ skb_frags s = skb_frags skb /\
  skb_destructor s = skb_destructor skb /\
  skb_dev s = dev ovpn /\ skb_ip_summed s = CHECKSUM_NONE /\
  (is_xmit x = true ->
   skb_sk s = if skb_destructor skb =? NULL then NULL else skb_sk skb).
Proof.
  egress_paths peer cache; intros Hx Hd; any_event Hx;
    injection Hd as Hd; subst s; cbn;
    repeat match goal with
           | H : (_ =? _) = _ |- _ => rewrite H
           end;
    repeat split; try reflexivity; try discriminate.
Qed.

Ltac bracket_at n :=
  match goal with
  | |- exists mid tail, Ev_rcu_read_lock :: ?l = _ /\ _ =>
      exists (firstn n l), (skipn (S n) l); cbn;
      split; [reflexivity|]
  end.

(** X13.  The read-side critical section is well bracketed: without a
    socket it is never entered; otherwise the trace is one lock, a stretch
    holding every access to the binding's route cache, every lookup, the
    keepalive note and the transmit, one unlock, and only then, outside
    the section, the freeing of a datagram that could not be sent. *)
Theorem send_skb_critical_section ovpn peer skb cache :
  let tr := m_trace (send ovpn peer skb cache) in
  match os_sock (peer_sock peer) with
  | None => count is_rcu tr = 0%nat /\ count is_protected tr = 0%nat
  | Some _ =>
      exists mid tail,
        tr = Ev_rcu_read_lock :: mid ++ Ev_rcu_read_unlock :: tail /\
        count is_rcu mid = 0%nat /\ count is_kfree_skb mid = 0%nat /\
        count is_rcu tail = 0%nat /\ count is_protected tail = 0%nat
  end.
Proof.
  cbv zeta.
  egress_paths peer cache;
    first [ split; reflexivity
          | first [ bracket_at 1%nat | bracket_at 2%nat | bracket_at 3%nat
                  | bracket_at 4%nat | bracket_at 5%nat | bracket_at 6%nat
                  | bracket_at 7%nat | bracket_at 8%nat ];
            repeat split; reflexivity ].
Qed.

(** X14.  When the transmitter stops before an output routine (no socket,
    no binding, or a family without output routine in this build) the
    peer's route cache is neither read nor written, and no route is looked
    up. *)
Theorem send_skb_cache_untouched ovpn peer skb cache :
  os_sock (peer_sock peer) = None \/ peer_bind peer = None \/
  (exists b, peer_bind peer = Some b /\ family_supported b = false) ->
  let m := send ovpn peer skb cache in
  m_cache m = cache /\ count is_route_event (m_trace m) = 0%nat.
Proof.
  cbv zeta.
  intros [Hs | [Hb | [b [Hb Hfam]]]];
    egress_paths peer cache; known; impossible; split; reflexivity.
Qed.

(** X15.  [ovpn_udp_output] returns 0 exactly when it has transmitted the
    buffer, once; every other return value is negative and nothing was
    transmitted.  A family without output routine gives [-EAFNOSUPPORT]
    without touching the route cache, and the IPv4 routine fails with
    [-EHOSTUNREACH] and nothing else. *)
Theorem udp_output_result ovpn b sk skb cache :
  let out := ovpn_udp_output ovpn b sk (start skb cache) in
  let tr := m_trace (snd out) in
  ((fst out = 0 /\ count is_xmit tr = 1%nat) \/
   (fst out < 0 /\ count is_xmit tr = 0%nat)) /\
  (family_supported b = false ->
   fst out = - EAFNOSUPPORT /\ tr = [] /\ m_cache (snd out) = cache) /\
  (sin_family b = AF_INET -> fst out = 0 \/ fst out = - EHOSTUNREACH).
Proof.
  cbv zeta.
  unfold ovpn_udp_output, ovpn_udp4_output, ovpn_udp6_output, transmit4,
    transmit6, confirm4, confirm6, dst_cache_get, dst_cache_reset,
    dst_cache_set, pr, emit, get_skb, put_skb, get_cache, put_cache, bind,
    ret, start; cbn.
  destruct cache as [[? ?]|]; cbn; repeat split_if;
    (split; [|split]);
    try (intros Hf; known; impossible; auto);
    try (left; split; [reflexivity | reflexivity]);
    try (right; split; [|reflexivity]);
    try (cbn; lia);
    try (apply IS_ERR_negative; assumption).
Qed.

(** X16.  The IPv6 routine hands the errno of a failed route lookup on to
    its caller, where the IPv4 routine answers [-EHOSTUNREACH] whatever
    the lookup's errno was. *)
Theorem udp_output_lookup_errno ovpn b sk skb e :
  1 <= e <= MAX_ERRNO ->
  (sin_family b = AF_INET ->
   fst (ip_route_output_flow sk (flow4_init b sk)) = ERR_PTR (- e) ->
   fst (ovpn_udp_output ovpn b sk (start skb None)) = - EHOSTUNREACH) /\
  (CONFIG_IPV6 = true -> sin_family b = AF_INET6 ->
   fst (ipv6_dst_lookup_flow sk (flow6_init b sk)) = ERR_PTR (- e) ->
   fst (ovpn_udp_output ovpn b sk (start skb None)) = - e).
Proof.
  intros He. destruct (ERR_PTR_decodes e He) as [Herr Hdec].
  unfold ovpn_udp_output, ovpn_udp4_output, ovpn_udp6_output, transmit4,
    transmit6, confirm4, confirm6, dst_cache_get, dst_cache_reset,
    dst_cache_set, pr, emit, get_skb, put_skb, get_cache, put_cache, bind,
    ret, start; cbn.
  unfold flow4_init, flow6_init, set_fl4_saddr, set_fl6_saddr; cbn.
  split.
  - intros Hf Hl. destruct (skb_destructor skb =? NULL); cbn;
      rewrite Hf; cbn; rewrite Hl, Herr; reflexivity.
  - intros H6 Hf Hl. destruct (skb_destructor skb =? NULL); cbn;
      rewrite Hf, H6; cbn; rewrite Hl, Herr; cbn; exact Hdec.
Qed.

End EgressFacts.

(** ** Peer references across both paths *)

(** C2 (amended).  A peer handle [p] returned by a lookup inside
    [ovpn_udp_encap_recv] (at most one lookup returns it) is handed to the
    receive pipeline exactly once, and the function itself releases it with
    [ovpn_peer_put] exactly when the pipeline answered with a negative
    status.  So exactly one release matches the lookup when the pipeline
    keeps the reference it is handed only if it answers with a non-negative
    status ([releases]); without a lookup returning [p] there is neither a
    hand-off nor a release of [p].  [ovpn_udp_send_skb] looks no peer up and
    releases none. *)
Theorem peer_reference_release_accounting
    {iops : IngressOps} {eops : EgressOps}
    sk skb p ovpn peer out cache :
  p <> NULL ->
  let tr := m_trace (snd (handle_ingress sk skb)) in
  let tr' := m_trace (send ovpn peer out cache) in
  (count (is_lookup_of p) tr <= 1)%nat /\
  count (is_recv_of p) tr = count (is_lookup_of p) tr /\
  count (is_put_of p) tr = count (is_rejected_recv_of p) tr /\
  releases p tr = count (is_lookup_of p) tr /\
  count is_peer_lookup tr' = 0%nat /\
  count is_peer_put tr' = 0%nat.
Proof.
  intros Hp. cbv zeta.
  destruct (encap_recv_reference_accounting sk skb p Hp) as (H1 & H2 & H3 & H4).
  destruct (send_skb_no_peer_reference ovpn peer out cache) as (H5 & H6).
  repeat split; assumption.
Qed.

(** ** Socket binding *)

(** Two increments of a [__u8] counter. *)
Lemma to_u8_twice c : to_u8 (to_u8 (c + 1) + 1) = to_u8 (c + 2).
Proof.
  unfold to_u8. rewrite Zplus_mod_idemp_l. f_equal. lia.
Qed.

Section SocketBindingFacts.
Variable UDP_ENCAP_OVPNINUDP : Z.
Variable ovpn_socket_ovpn : ptr -> ptr.

Abbreviation attach := (ovpn_udp_socket_attach UDP_ENCAP_OVPNINUDP ovpn_socket_ovpn).
Abbreviation owner := (socket_owner ovpn_socket_ovpn).

Ltac run_attach :=
  unfold ovpn_udp_socket_attach, socket_owner in *; cbn in *.


(** X26.  On an unclaimed UDP socket attach succeeds and installs the device
    context pointer itself as private data, with the ingress callback. *)
Lemma socket_attach_unclaimed sock ovpn :
  sk_protocol (sk sock) = IPPROTO_UDP ->
  sk_user_data (sk sock) = NULL ->
  let r := attach sock ovpn in
  fst r = 0 /\
  sk_user_data (sk (snd r)) = ovpn /\
  encap_type (sk (snd r)) = UDP_ENCAP_OVPNINUDP /\
  encap_rcv (sk (snd r)) = Encap_rcv_ovpn_udp_encap_recv.
Proof.
  intros Hp Hd. run_attach. rewrite Hp, Hd. cbn. auto.
Qed.

(** X19.  Attach directly after a successful attach of [a]: the private
    data is the pointer [a] itself, so the contention check compares what
    the device structure holds at the [ovpn] member with [b]. *)
Lemma socket_attach_after_attach sock a b :
  sk_protocol (sk sock) = IPPROTO_UDP ->
  sk_user_data (sk sock) = NULL ->
  a <> NULL ->
  let s1 := snd (attach sock a) in
  attach s1 b =
    (if ovpn_socket_ovpn a =? b then - EALREADY else - EBUSY, s1).
Proof.
  intros Hp Hd Ha. run_attach. rewrite Hp, Hd. cbn. rewrite Hp. cbn.
  apply Z.eqb_neq in Ha. rewrite Ha. cbn.
  destruct (ovpn_socket_ovpn a =? b); reflexivity.
Qed.

(** X17.  Same-owner detection.  On a UDP socket whose private data names the
    device context (the [ovpn] member of the private data, as the contention
    check reads it, is that device), attach with the same device returns
    [-EALREADY] and leaves the socket, ownership token included,
    unchanged. *)
Theorem socket_attach_same_owner sock ovpn :
  sk_protocol (sk sock) = IPPROTO_UDP ->
  owner sock = Some ovpn ->
  attach sock ovpn = (- EALREADY, sock).
Proof.
  intros Hp Ho. run_attach. rewrite Hp. cbn.
  destruct (sk_user_data (sk sock) =? NULL); cbn; [discriminate|].
  injection Ho as Ho. rewrite Ho, Z.eqb_refl. reflexivity.
Qed.


(** X18.  Attach succeeds exactly on an unclaimed UDP socket, and answers
    [-EINVAL] exactly on a socket of another protocol, whoever owns it: the
    protocol is checked before the owner. *)
Theorem socket_attach_succeeds_iff sock ovpn :
  (fst (attach sock ovpn) = 0 <->
   sk_protocol (sk sock) = IPPROTO_UDP /\ sk_user_data (sk sock) = NULL) /\
  (fst (attach sock ovpn) = - EINVAL <->
   sk_protocol (sk sock) <> IPPROTO_UDP).
Proof.
  run_attach.
  destruct (sk_protocol (sk sock) =? IPPROTO_UDP) eqn:Hp; cbn;
    [apply Z.eqb_eq in Hp | apply Z.eqb_neq in Hp].
  - destruct (sk_user_data (sk sock) =? NULL) eqn:Hd; cbn;
      [apply Z.eqb_eq in Hd | apply Z.eqb_neq in Hd].
    + split; split; intros H; try tauto; try discriminate.
    + destruct (ovpn_socket_ovpn (sk_user_data (sk sock)) =? ovpn); cbn;
        split; split; intros H; try tauto; try discriminate.
  - split; split; intros H; try tauto; try discriminate.
Qed.

(** X20.  Detach asks no question: whatever the socket's protocol and
    whoever owns it, the private data and the callback are gone afterwards,
    the other socket settings are kept, and on a UDP socket the next
    attach, by any device, succeeds and installs that device. *)
Theorem socket_detach_then_attach sock f_count b :
  let s1 := fst (ovpn_udp_socket_detach sock f_count) in
  owner s1 = None /\
  encap_rcv (sk s1) = Encap_rcv_none /\ encap_type (sk s1) = 0 /\
  sk_protocol (sk s1) = sk_protocol (sk sock) /\
  inet_sport (sk s1) = inet_sport (sk sock) /\
  sk_mark (sk s1) = sk_mark (sk sock) /\
  sk_bound_dev_if (sk s1) = sk_bound_dev_if (sk sock) /\
  (sk_protocol (sk sock) = IPPROTO_UDP ->
   fst (attach s1 b) = 0 /\
   sk_user_data (sk (snd (attach s1 b))) = b /\
   encap_rcv (sk (snd (attach s1 b))) = Encap_rcv_ovpn_udp_encap_recv).
Proof.
  cbv zeta. unfold ovpn_udp_socket_detach. run_attach.
  repeat split; try reflexivity.
  all: rewrite H; reflexivity.
Qed.

(** X21.  Attach followed by detach does not give the socket back as it
    was.  On an unclaimed UDP socket without encapsulation the private
    data, the encapsulation type and the callbacks are as before, and the
    settings the two calls do not write are kept, but three things are not
    undone: multicast loopback stays switched off, the checksum-conversion
    counter is up by two (modulo 256), and the encapsulation-enabled bit
    stays set. *)
Theorem socket_attach_detach_roundtrip sock ovpn f_count :
  sk_protocol (sk sock) = IPPROTO_UDP ->
  sk_user_data (sk sock) = NULL ->
  encap_type (sk sock) = 0 ->
  encap_rcv (sk sock) = Encap_rcv_none ->
  encap_err_lookup (sk sock) = NULL /\ encap_destroy (sk sock) = NULL /\
  gro_receive (sk sock) = NULL /\ gro_complete (sk sock) = NULL ->
  sk (fst (ovpn_udp_socket_detach (snd (attach sock ovpn)) f_count)) =
  {| sk_protocol := sk_protocol (sk sock); sk_mark := sk_mark (sk sock);
     sk_bound_dev_if := sk_bound_dev_if (sk sock);
     sk_no_check_tx := sk_no_check_tx (sk sock);
     no_check6_tx := no_check6_tx (sk sock);
     inet_sport := inet_sport (sk sock);
     mc_loop := false;
     convert_csum := to_u8 (convert_csum (sk sock) + 2);
     sk_user_data := sk_user_data (sk sock);
     encap_type := encap_type (sk sock);
     encap_rcv := encap_rcv (sk sock);
     encap_err_lookup := encap_err_lookup (sk sock);
     encap_destroy := encap_destroy (sk sock);
     gro_receive := gro_receive (sk sock);
     gro_complete := gro_complete (sk sock);
     encap_enabled := true |}.
Proof.
  destruct sock as [s]; destruct s. cbn.
  intros Hp Hd Ht Hr (H1 & H2 & H3 & H4). subst.
  cbn. rewrite to_u8_twice. reflexivity.
Qed.

(** X22.  Detach is not idempotent: every call, attached or not, drops one
    reference on the socket's file and bumps the socket's
    checksum-conversion counter.  Called twice on a socket whose file has
    at least two references, the second call leaves the socket as the
    first did except for that counter, the file has lost two references,
    and it is released by the second call exactly when it had only two. *)
Theorem socket_detach_twice sock f_count :
  2 <= f_count < 2 ^ 63 ->
  let once := ovpn_udp_socket_detach sock f_count in
  let twice := ovpn_udp_socket_detach (fst once) (snd once) in
  snd once = f_count - 1 /\ file_released (snd once) = false /\
  snd twice = f_count - 2 /\ file_released (snd twice) = (f_count =? 2) /\
  convert_csum (sk (fst once)) = to_u8 (convert_csum (sk sock) + 1) /\
  sk (fst twice) =
  {| sk_protocol := sk_protocol (sk (fst once));
     sk_mark := sk_mark (sk (fst once));
     sk_bound_dev_if := sk_bound_dev_if (sk (fst once));
     sk_no_check_tx := sk_no_check_tx (sk (fst once));
     no_check6_tx := no_check6_tx (sk (fst once));
     inet_sport := inet_sport (sk (fst once));
     mc_loop := mc_loop (sk (fst once));
     convert_csum := to_u8 (convert_csum (sk sock) + 2);
     sk_user_data := sk_user_data (sk (fst once));
     encap_type := encap_type (sk (fst once));
     encap_rcv := encap_rcv (sk (fst once));
     encap_err_lookup := encap_err_lookup (sk (fst once));
     encap_destroy := encap_destroy (sk (fst once));
     gro_receive := gro_receive (sk (fst once));
     gro_complete := gro_complete (sk (fst once));
     encap_enabled := encap_enabled (sk (fst once)) |}.
Proof.
  intros Hf. cbv zeta.
  unfold ovpn_udp_socket_detach, sockfd_put, file_released, to_long,
    to_ulong, BITS_PER_LONG. cbn [fst snd].
  change (2 ^ (64 - 1)) with 9223372036854775808.
  change (2 ^ 64) with 18446744073709551616.
  change (2 ^ 63) with 9223372036854775808 in Hf.
  assert (H1 : (f_count - 1) mod 18446744073709551616 = f_count - 1)
    by (apply Z.mod_small; lia).
  rewrite H1.
  assert (H2 : (f_count - 1 <? 9223372036854775808) = true)
    by (apply Z.ltb_lt; lia).
  rewrite H2.
  assert (H3 : (f_count - 1 - 1) mod 18446744073709551616 = f_count - 2).
  { rewrite Z.mod_small; lia. }
  rewrite H3.
  assert (H4 : (f_count - 2 <? 9223372036854775808) = true)
    by (apply Z.ltb_lt; lia).
  rewrite H4.
  split; [reflexivity|]. split; [apply Z.eqb_neq; lia|].
  split; [reflexivity|].
  split.
  { destruct (f_count =? 2) eqn:E;
      [apply Z.eqb_eq in E; apply Z.eqb_eq; lia
      | apply Z.eqb_neq in E; apply Z.eqb_neq; lia]. }
  split; [reflexivity|].
  cbn. rewrite to_u8_twice. reflexivity.
Qed.

End SocketBindingFacts.

(** ** The compatibility header *)

Lemma sum_u32_nonneg l : 0 <= sum_u32 l.
Proof.
  induction l as [|x l IH]; [cbn; lia|].
  change (sum_u32 (x :: l)) with (to_u32 x + sum_u32 l).
  unfold to_u32. pose proof (Z.mod_pos_bound x (2 ^ 32) eq_refl). lia.
Qed.

Lemma this_cpu_update_same cpu f t : this_cpu_update cpu f t cpu = f (t cpu).
Proof. unfold this_cpu_update. rewrite Nat.eqb_refl. reflexivity. Qed.

Lemma this_cpu_update_other cpu f t c :
  c <> cpu -> this_cpu_update cpu f t c = t c.
Proof.
  intros H. unfold this_cpu_update.
  destruct (Nat.eqb c cpu) eqn:E; [apply Nat.eqb_eq in E; contradiction|].
  reflexivity.
Qed.

(** X23.  Transmit accounting adds up: after any sequence of
    [dev_sw_netstats_tx_add] calls on one CPU, that CPU's transmit counters
    are the old ones plus the packets and bytes of all the calls, modulo
    2^64 (exactly, as long as the totals stay below 2^64); its receive
    counters and the blocks of the other CPUs are untouched. *)
Theorem netstats_tx_accumulates cpu (adds : list (Z * Z)) t :
  netstats_wf (t cpu) ->
  let t' := fold_left
              (fun t pl => dev_sw_netstats_tx_add cpu t (fst pl) (snd pl))
              adds t in
  tx_packets (t' cpu) = to_u64 (tx_packets (t cpu) + sum_u32 (map fst adds)) /\
  tx_bytes (t' cpu) = to_u64 (tx_bytes (t cpu) + sum_u32 (map snd adds)) /\
  (tx_bytes (t cpu) + sum_u32 (map snd adds) < 2 ^ 64 ->
   tx_bytes (t' cpu) = tx_bytes (t cpu) + sum_u32 (map snd adds)) /\
  rx_packets (t' cpu) = rx_packets (t cpu) /\
  rx_bytes (t' cpu) = rx_bytes (t cpu) /\
  netstats_wf (t' cpu) /\
  (forall c, c <> cpu -> t' c = t c).
Proof.
  cbv zeta. revert t.
  induction adds as [|[p l] adds IH]; intros t Hwf.
  - destruct Hwf as (H1 & H2 & H3 & H4). cbn. unfold to_u64.
    rewrite !Z.add_0_r, !Z.mod_small by assumption.
    repeat split; try reflexivity; try tauto.
  - cbn [fold_left fst snd map].
    set (t1 := dev_sw_netstats_tx_add cpu t p l).
    assert (Hwf1 : netstats_wf (t1 cpu)).
    { destruct Hwf as (H1 & H2 & H3 & H4).
      unfold t1, dev_sw_netstats_tx_add. rewrite this_cpu_update_same.
      unfold netstats_wf, to_u64; cbn.
      repeat split; try tauto; apply Z.mod_pos_bound; reflexivity. }
    destruct (IH t1 Hwf1) as (I1 & I2 & I3 & I4 & I5 & I6 & I7).
    assert (E : t1 cpu =
                {| rx_packets := rx_packets (t cpu);
                   rx_bytes := rx_bytes (t cpu);
                   tx_packets := to_u64 (tx_packets (t cpu) + to_u32 p);
                   tx_bytes := to_u64 (tx_bytes (t cpu) + to_u32 l) |}).
    { unfold t1, dev_sw_netstats_tx_add. apply this_cpu_update_same. }
    rewrite E in I1, I2, I4, I5. cbn in I1, I2, I4, I5.
    assert (P : tx_packets
                  (fold_left
                     (fun t pl => dev_sw_netstats_tx_add cpu t (fst pl) (snd pl))
                     adds t1 cpu) =
                to_u64 (tx_packets (t cpu) + sum_u32 (p :: map fst adds))).
    { rewrite I1. unfold to_u64. cbn [sum_u32 fold_right].
      rewrite Zplus_mod_idemp_l. f_equal. unfold sum_u32. lia. }
    assert (B : tx_bytes
                  (fold_left
                     (fun t pl => dev_sw_netstats_tx_add cpu t (fst pl) (snd pl))
                     adds t1 cpu) =
                to_u64 (tx_bytes (t cpu) + sum_u32 (l :: map snd adds))).
    { rewrite I2. unfold to_u64. cbn [sum_u32 fold_right].
      rewrite Zplus_mod_idemp_l. f_equal. unfold sum_u32. lia. }
    split; [exact P|]. split; [exact B|].
    split.
    { intros Hlt. rewrite B. unfold to_u64. apply Z.mod_small.
      destruct Hwf as (_ & _ & _ & H4).
      pose proof (sum_u32_nonneg (l :: map snd adds)).
      cbn [map] in Hlt. lia. }
    split; [exact I4|]. split; [exact I5|]. split; [exact I6|].
    intros c Hc. rewrite (I7 c Hc).
    unfold t1, dev_sw_netstats_tx_add. apply this_cpu_update_other. exact Hc.
Qed.

(** X24.  Receive accounting counts one packet per call: after
    [dev_sw_netstats_rx_add] was called once for each length of a list, the
    CPU's receive packet counter is up by the number of calls and its byte
    counter by the sum of the lengths, modulo 2^64; the transmit counters
    and the other CPUs' blocks are untouched. *)
Theorem netstats_rx_accumulates cpu (lens : list Z) t :
  netstats_wf (t cpu) ->
  let t' := fold_left (fun t len => dev_sw_netstats_rx_add cpu t len) lens t in
  rx_packets (t' cpu) =
    to_u64 (rx_packets (t cpu) + Z.of_nat (length lens)) /\
  rx_bytes (t' cpu) = to_u64 (rx_bytes (t cpu) + sum_u32 lens) /\
  tx_packets (t' cpu) = tx_packets (t cpu) /\
  tx_bytes (t' cpu) = tx_bytes (t cpu) /\
  (forall c, c <> cpu -> t' c = t c).
Proof.
  cbv zeta. revert t.
  induction lens as [|l lens IH]; intros t Hwf.
  - destruct Hwf as (H1 & H2 & H3 & H4). cbn. unfold to_u64.
    rewrite !Z.add_0_r, !Z.mod_small by assumption.
    repeat split; try reflexivity.
  - cbn [fold_left].
    set (t1 := dev_sw_netstats_rx_add cpu t l).
    assert (E : t1 cpu =
                {| rx_packets := to_u64 (rx_packets (t cpu) + 1);
                   rx_bytes := to_u64 (rx_bytes (t cpu) + to_u32 l);
                   tx_packets := tx_packets (t cpu);
                   tx_bytes := tx_bytes (t cpu) |}).
    { unfold t1, dev_sw_netstats_rx_add. apply this_cpu_update_same. }
    assert (Hwf1 : netstats_wf (t1 cpu)).
    { destruct Hwf as (H1 & H2 & H3 & H4). rewrite E.
      unfold netstats_wf, to_u64; cbn.
      repeat split; try tauto; apply Z.mod_pos_bound; reflexivity. }
    destruct (IH t1 Hwf1) as (I1 & I2 & I3 & I4 & I5).
    rewrite E in I1, I2, I3, I4. cbn in I1, I2, I3, I4.
    split.
    { rewrite I1. unfold to_u64. rewrite Zplus_mod_idemp_l. f_equal.
      cbn [length]. lia. }
    split.
    { rewrite I2. unfold to_u64. cbn [sum_u32 fold_right].
      rewrite Zplus_mod_idemp_l. f_equal. unfold sum_u32. lia. }
    split; [exact I3|]. split; [exact I4|].
    intros c Hc. rewrite (I5 c Hc).
    unfold t1, dev_sw_netstats_rx_add. apply this_cpu_update_other. exact Hc.
Qed.

Section SkbListWalkFacts.
Variable mem : Type.
Variable next_of : mem -> ptr -> ptr.
Variable body : ptr -> mem -> mem.
Hypothesis Hlocal : body_local mem next_of body.

(** Running the body on [x] keeps every list that does not go through
    [x]. *)
Lemma skb_chain_frame x l : forall m p,
  ~ In x l ->
  skb_chain mem next_of m p l ->
  skb_chain mem next_of (body x m) p l.
Proof.
  induction l as [|y l IH]; intros m p Hx Hc; cbn in *; [exact Hc|].
  destruct Hc as (Hp & Hy & Hc).
  split; [exact Hp|]. split; [exact Hy|].
  rewrite Hlocal by (intros E; apply Hx; left; congruence).
  apply IH; [tauto | exact Hc].
Qed.

Lemma skb_list_walk_from_chain l : forall x m fuel,
  x <> NULL ->
  NoDup (x :: l) ->
  skb_chain mem next_of m (next_of m x) l ->
  (S (length l) < fuel)%nat ->
  skb_list_walk_safe_from mem next_of body fuel x (next_of m x) m =
  Some (fold_left (fun m y => body y m) (x :: l) m).
Proof.
  induction l as [|y l IH]; intros x m fuel Hx Hnd Hc Hfuel.
  - cbn in Hc. destruct fuel as [|[|fuel]]; cbn in Hfuel; try lia.
    cbn. apply Z.eqb_neq in Hx. rewrite Hx, Hc. cbn. reflexivity.
  - cbn in Hc. destruct Hc as (Hn & Hy & Hc).
    destruct fuel as [|fuel]; [cbn in Hfuel; lia|].
    cbn [skb_list_walk_safe_from].
    pose proof Hx as Hx'. apply Z.eqb_neq in Hx'. rewrite Hx'.
    rewrite Hn.
    pose proof Hy as Hy'. apply Z.eqb_neq in Hy'. rewrite Hy'.
    assert (Hyx : y <> x).
    { inversion Hnd as [|? ? Hni _]; subst. intros E. apply Hni. left.
      congruence. }
    assert (Hframe : next_of (body x m) y = next_of m y)
      by (apply Hlocal; exact Hyx).
    rewrite (IH y (body x m) fuel).
    + reflexivity.
    + exact Hy.
    + inversion Hnd; assumption.
    + rewrite Hframe. apply skb_chain_frame; [|exact Hc].
      inversion Hnd as [|? ? Hni _]; subst. intros E. apply Hni. right. exact E.
    + cbn in Hfuel. lia.
Qed.

(** X25.  [skb_list_walk_safe] runs its body on every buffer of a
    [NULL]-terminated list, once each and in list order, even when the body
    overwrites the [next] pointer of the buffer it is run on (it must leave
    the other buffers' [next] pointers alone); on an empty list the body is
    not run at all. *)
Theorem skb_list_walk_safe_visits_all l first m fuel :
  skb_chain mem next_of m first l ->
  NoDup l ->
  (length l < fuel)%nat ->
  skb_list_walk_safe mem next_of body fuel first m =
  Some (fold_left (fun m x => body x m) l m).
Proof.
  intros Hc Hnd Hfuel. unfold skb_list_walk_safe.
  destruct l as [|x l].
  - cbn in Hc. subst first. destruct fuel; [cbn in Hfuel; lia|].
    reflexivity.
  - cbn in Hc. destruct Hc as (Hf & Hx & Hc). subst first.
    pose proof Hx as Hx'. apply Z.eqb_neq in Hx'. rewrite Hx'.
    apply skb_list_walk_from_chain; assumption.
Qed.

End SkbListWalkFacts.

(** ** The scenarios of the design document, run on the model *)

(** Peer 7 is registered; a DATA_V2 datagram for peer 7 is consumed and the
    pipeline receives peer 7 with the header-stripped payload. *)
Example scenario_ingress_data_v2_peer7 :
  @handle_ingress (Sample.ingress_ops 0 false) (Sample.udp_socket 64)
    (Sample.buffer Sample.data_v2_peer7 []) =
  (0, {| m_skb := Sample.payload; m_cache := None;
         m_trace := [Ev_ovpn_peer_lookup_id Sample.device 7 Sample.peer7;
                     Ev_ovpn_recv Sample.device Sample.peer7 Sample.payload] |}).
Proof. reflexivity. Qed.

(** Sending to peer 7, bound to 203.0.113.9:1194, with an empty route cache
    and a successful lookup: the cache is populated and one transmit goes to
    203.0.113.9:1194. *)
Example scenario_send_empty_cache :
  let m := @send Sample.egress_ops Sample.tun
             (Sample.peer_with (Some Sample.transport)
                (Some (Sample.bind_to AF_INET Sample.remote4)))
             Sample.payload None in
  m_cache m = Some {| dc_dst := Sample.route4; dc_saddr := Sample.local4 |} /\
  filter is_xmit (m_trace m) =
    [Ev_udp_tunnel_xmit_skb Sample.route4
       (set_sk (set_ip_summed (set_dev Sample.payload 512) CHECKSUM_NONE) NULL)
       Sample.local4 Sample.remote4 64 1194 1194 false].
Proof. split; reflexivity. Qed.

(** With a cached route whose source address is still assigned locally the
    route is reused: no reset, no lookup. *)
Example scenario_send_cached_route :
  let cached := Some {| dc_dst := Sample.route4; dc_saddr := Sample.local4 |} in
  let m := @send Sample.egress_ops Sample.tun
             (Sample.peer_with (Some Sample.transport)
                (Some (Sample.bind_to AF_INET Sample.remote4)))
             Sample.payload cached in
  m_cache m = cached /\
  m_trace m =
    [Ev_rcu_read_lock; Ev_ovpn_peer_keepalive_xmit_reset 7;
     Ev_dst_cache_get cached; Ev_confirm_addr AF_INET Sample.local4 true;
     Ev_udp_tunnel_xmit_skb Sample.route4
       (set_sk (set_ip_summed (set_dev Sample.payload 512) CHECKSUM_NONE) NULL)
       Sample.local4 Sample.remote4 64 1194 1194 false;
     Ev_rcu_read_unlock].
Proof. split; reflexivity. Qed.

(** ** Where the design document and the code part ways *)

(** C1, as stated, fails.  The pipeline is invoked on a DATA_V2 datagram of
    the known peer 7 and answers -28 (no space left); [ovpn_udp_encap_recv]
    returns 0, not -28. *)
Lemma encap_recv_negative_status_not_propagated :
  let ops := Sample.ingress_ops (-28) false in
  let r := @handle_ingress ops (Sample.udp_socket 64)
             (Sample.buffer Sample.data_v2_peer7 []) in
  In (Ev_ovpn_recv Sample.device Sample.peer7 Sample.payload) (m_trace (snd r)) /\
  @ovpn_recv ops Sample.device Sample.peer7 Sample.payload = -28 /\
  fst r = 0 /\
  fst r <> @ovpn_recv ops Sample.device Sample.peer7 Sample.payload.
Proof.
  cbv zeta. repeat split; try reflexivity; try discriminate.
  vm_compute. auto.
Qed.

(** C2, as stated, fails.  With every hand-off counted as a release (the
    pipeline owning whatever reference it receives), the handle of peer 7,
    looked up once, is released twice when the pipeline answers -28: once by
    the hand-off, once by the [ovpn_peer_put] of the drop path. *)
Lemma peer_reference_released_twice :
  let tr := m_trace (snd (@handle_ingress (Sample.ingress_ops (-28) false)
                            (Sample.udp_socket 64)
                            (Sample.buffer Sample.data_v2_peer7 []))) in
  count (is_lookup_of Sample.peer7) tr = 1%nat /\
  count (is_recv_of Sample.peer7) tr = 1%nat /\
  count (is_put_of Sample.peer7) tr = 1%nat /\
  releases_spec Sample.peer7 tr = 2%nat /\
  releases_spec Sample.peer7 tr <> 1%nat.
Proof.
  cbv zeta. repeat split; try reflexivity. vm_compute. discriminate.
Qed.

(** C4.  The code breaks the not-consumed contract on its hand-off path.  A
    control packet from a known transport address goes to the pipeline,
    which answers 1; [ovpn_udp_encap_recv] returns 1, "not consumed", and the
    buffer has lost its UDP header, popped before the hand-off.  The return
    of 1 for an unknown address, taken before the header is popped, leaves
    the buffer whole ([encap_recv_not_consumed]). *)
Lemma encap_recv_positive_status_after_strip :
  let skb := Sample.buffer Sample.control_packet [] in
  let r := @handle_ingress (Sample.ingress_ops 1 true) (Sample.udp_socket 64) skb in
  fst r = 1 /\ fst r <> 0 /\
  skb_bytes (m_skb (snd r)) = skipn 8 (skb_bytes skb) /\
  skb_bytes (m_skb (snd r)) <> skb_bytes skb.
Proof.
  cbv zeta. repeat split; try reflexivity; vm_compute; discriminate.
Qed.

(** C6.  Attach does not recognise the token it installs itself.  The first
    attach of the device at 4096 to an unclaimed UDP socket succeeds and
    leaves 4096 itself as private data; the second attach reads that private
    data as a [struct ovpn_socket], finds 8192 in its [ovpn] member, and
    returns [-EBUSY], not [-EALREADY].  On a token that names the device the
    answer is [-EALREADY] ([socket_attach_same_owner]). *)
Lemma socket_attach_twice_in_a_row_busy :
  let attach := ovpn_udp_socket_attach Sample.encap_ovpn Sample.memory in
  let s0 := {| sk := Sample.udp_socket NULL |} in
  let first := attach s0 Sample.device in
  let second := attach (snd first) Sample.device in
  fst first = 0 /\
  sk_user_data (sk (snd first)) = Sample.device /\
  fst second = - EBUSY /\
  fst second <> - EALREADY.
Proof.
  cbv zeta. repeat split; try reflexivity. vm_compute. discriminate.
Qed.

(** ** The properties at concrete inputs *)

Lemma encap_recv_status_of_pipeline_witness :
  let ops := Sample.ingress_ops 0 false in
  let sk := Sample.udp_socket 64 in
  let skb := Sample.buffer Sample.data_v2_peer7 [] in
  In (Ev_ovpn_recv Sample.device Sample.peer7 Sample.payload)
     (m_trace (snd (@handle_ingress ops sk skb))) /\
  fst (@handle_ingress ops sk skb) = 0.
Proof.
  cbv zeta.
  assert (H : In (Ev_ovpn_recv Sample.device Sample.peer7 Sample.payload)
                (m_trace (snd (@handle_ingress (Sample.ingress_ops 0 false)
                   (Sample.udp_socket 64)
                   (Sample.buffer Sample.data_v2_peer7 []))))).
  { vm_compute. auto. }
  split; [exact H|].
  exact (proj1 (@encap_recv_status_of_pipeline (Sample.ingress_ops 0 false)
                  _ _ _ _ _ H)).
Defined.

Lemma peer_reference_release_accounting_witness :
  let tr := m_trace (snd (@handle_ingress (Sample.ingress_ops (-28) false)
                            (Sample.udp_socket 64)
                            (Sample.buffer Sample.data_v2_peer7 []))) in
  Sample.peer7 <> NULL /\
  count (is_put_of Sample.peer7) tr =
    count (@is_rejected_recv_of (Sample.ingress_ops (-28) false) Sample.peer7) tr /\
  @releases (Sample.ingress_ops (-28) false) Sample.peer7 tr =
    count (is_lookup_of Sample.peer7) tr.
Proof.
  cbv zeta.
  assert (H : Sample.peer7 <> NULL) by (vm_compute; discriminate).
  destruct (@peer_reference_release_accounting
              (Sample.ingress_ops (-28) false) Sample.egress_ops
              (Sample.udp_socket 64) (Sample.buffer Sample.data_v2_peer7 [])
              Sample.peer7 Sample.tun (Sample.peer_with None None)
              Sample.payload None H) as (_ & _ & H3 & H4 & _).
  split; [exact H | split; [exact H3 | exact H4]].
Defined.

Lemma send_skb_frees_on_failure_witness :
  let peer := Sample.peer_with (Some Sample.transport)
                (Some (Sample.bind_to AF_INET 1)) in
  let tr := m_trace (@send Sample.egress_ops Sample.tun peer Sample.payload None) in
  @send_fails Sample.egress_ops peer None /\
  count is_kfree_skb tr = 1%nat /\ count is_xmit tr = 0%nat.
Proof.
  cbv zeta.
  assert (F : @send_fails Sample.egress_ops
                (Sample.peer_with (Some Sample.transport)
                   (Some (Sample.bind_to AF_INET 1))) None).
  { apply (@Fail_route4 Sample.egress_ops _ _ Sample.transport
             (Sample.bind_to AF_INET 1)); reflexivity || exact I. }
  split; [exact F|].
  exact (proj1 (@send_skb_frees_on_failure Sample.egress_ops Sample.tun _
                  Sample.payload None) F).
Defined.

Lemma encap_recv_not_consumed_witness :
  let r := @handle_ingress (Sample.ingress_ops 0 false) (Sample.udp_socket 64)
             (Sample.buffer Sample.control_packet []) in
  fst r <> 0 /\
  0 < fst r /\ count is_kfree_skb (m_trace (snd r)) = 0%nat.
Proof.
  cbv zeta.
  assert (H : fst (@handle_ingress (Sample.ingress_ops 0 false)
                     (Sample.udp_socket 64)
                     (Sample.buffer Sample.control_packet [])) <> 0)
    by (vm_compute; discriminate).
  destruct (@encap_recv_not_consumed (Sample.ingress_ops 0 false) _ _ H)
    as (H1 & H2 & _).
  split; [exact H | split; [exact H1 | exact H2]].
Defined.

Lemma send_skb_unusable_cache_fresh_lookup_witness :
  let stale := Some {| dc_dst := 40960; dc_saddr := 167772162 |} in
  let b := Sample.bind_to AF_INET Sample.remote4 in
  let peer := Sample.peer_with (Some Sample.transport) (Some b) in
  let m := @send Sample.egress_ops Sample.tun peer Sample.payload stale in
  @cache_unusable4 Sample.egress_ops (sk Sample.transport) stale /\
  (exists pre post,
     m_trace m = pre ++ Ev_dst_cache_reset ::
                   Ev_ip_route_output_flow (flow4_init b (sk Sample.transport))
                     Sample.route4 :: post /\
     count is_xmit pre = 0%nat) /\
  m_cache m = Some {| dc_dst := Sample.route4; dc_saddr := Sample.local4 |}.
Proof.
  cbv zeta.
  assert (Hc : @cache_unusable4 Sample.egress_ops (sk Sample.transport)
                 (Some {| dc_dst := 40960; dc_saddr := 167772162 |}))
    by (right; reflexivity).
  destruct (@send_skb_unusable_cache_fresh_lookup Sample.egress_ops Sample.tun
              (Sample.peer_with (Some Sample.transport)
                 (Some (Sample.bind_to AF_INET Sample.remote4)))
              Sample.payload
              (Some {| dc_dst := 40960; dc_saddr := 167772162 |})) as [H4 _].
  destruct (H4 Sample.transport (Sample.bind_to AF_INET Sample.remote4)
              eq_refl eq_refl eq_refl Hc)
    as (pre & post & E & Hpre & _ & _ & Hcache).
  split; [exact Hc | split; [exists pre, post; split; [exact E | exact Hpre]
                            | exact Hcache]].
Defined.

Lemma socket_attach_same_owner_witness :
  let sock := {| sk := Sample.udp_socket 64 |} in
  sk_protocol (sk sock) = IPPROTO_UDP /\
  socket_owner Sample.memory sock = Some Sample.device /\
  ovpn_udp_socket_attach Sample.encap_ovpn Sample.memory sock Sample.device =
    (- EALREADY, sock).
Proof.
  cbv zeta. split; [reflexivity | split; [reflexivity|]].
  apply socket_attach_same_owner; reflexivity.
Defined.


Lemma encap_recv_data_v2_witness :
  let ops := Sample.ingress_ops 0 false in
  let sk := Sample.udp_socket 64 in
  let skb := Sample.buffer (firstn 10 Sample.data_v2_peer7)
               (skipn 10 Sample.data_v2_peer7) in
  @ovpn_from_udp_sock ops sk <> NULL /\
  @may_pull ops skb min_ingress_len = true /\
  @ovpn_opcode_from_skb ops (@pulled ops skb min_ingress_len) sizeof_udphdr
    = @OVPN_DATA_V2 ops /\
  filter is_ovpn_recv (m_trace (snd (@handle_ingress ops sk skb))) =
    [Ev_ovpn_recv Sample.device Sample.peer7
       (skb_pull_bytes (@pulled ops skb min_ingress_len) sizeof_udphdr)].
Proof.
  cbv zeta.
  assert (H1 : @ovpn_from_udp_sock (Sample.ingress_ops 0 false)
                 (Sample.udp_socket 64) <> NULL)
    by (vm_compute; discriminate).
  assert (H4 : @ovpn_peer_lookup_id (Sample.ingress_ops 0 false)
                 (@ovpn_from_udp_sock (Sample.ingress_ops 0 false)
                    (Sample.udp_socket 64))
                 (@ovpn_peer_id_from_skb (Sample.ingress_ops 0 false)
                    (@pulled (Sample.ingress_ops 0 false)
                       (Sample.buffer (firstn 10 Sample.data_v2_peer7)
                          (skipn 10 Sample.data_v2_peer7)) min_ingress_len)
                    sizeof_udphdr) <> NULL)
    by (vm_compute; discriminate).
  split; [exact H1 | split; [reflexivity | split; [reflexivity|]]].
  exact (proj1 (proj1 (@encap_recv_data_v2 (Sample.ingress_ops 0 false)
                         (Sample.udp_socket 64)
                         (Sample.buffer (firstn 10 Sample.data_v2_peer7)
                            (skipn 10 Sample.data_v2_peer7))
                         H1 eq_refl eq_refl) H4)).
Defined.

Lemma encap_recv_truncated_witness :
  let skb := Sample.buffer Sample.truncated [] in
  let r := @handle_ingress (Sample.ingress_ops 0 false) (Sample.udp_socket 64) skb in
  skb_len skb < min_ingress_len /\
  fst r = 0 /\
  filter is_kfree_skb (m_trace (snd r)) = [Ev_kfree_skb skb] /\
  count is_peer_lookup (m_trace (snd r)) = 0%nat.
Proof.
  cbv zeta. split; [reflexivity|].
  apply (@encap_recv_truncated (Sample.ingress_ops 0 false)). reflexivity.
Defined.

(** ** The further properties at concrete inputs *)

Lemma encap_recv_no_device_witness :
  let ops := Sample.ingress_ops 0 true in
  let sk := Sample.udp_socket NULL in
  let skb := Sample.buffer Sample.data_v2_peer7 [] in
  @ovpn_from_udp_sock ops sk = NULL /\
  @handle_ingress ops sk skb =
    (0, {| m_skb := skb; m_cache := None;
           m_trace := [Ev_diag Diag_no_ovpn_object; Ev_kfree_skb skb] |}).
Proof.
  cbv zeta. split; [reflexivity|].
  apply (@encap_recv_no_device (Sample.ingress_ops 0 true)). reflexivity.
Defined.

Lemma encap_recv_pull_no_memory_witness :
  let ops := Sample2.ingress_ops_no_memory in
  let sk := Sample.udp_socket 64 in
  let skb := Sample2.split_datagram in
  skb_headlen skb < min_ingress_len <= skb_len skb /\
  @handle_ingress ops sk skb =
    (0, {| m_skb := skb; m_cache := None;
           m_trace := [Ev_diag Diag_packet_too_small; Ev_kfree_skb skb] |}).
Proof.
  cbv zeta.
  assert (H1 : @ovpn_from_udp_sock Sample2.ingress_ops_no_memory
                 (Sample.udp_socket 64) <> NULL)
    by (vm_compute; discriminate).
  assert (H2 : skb_headlen Sample2.split_datagram < min_ingress_len
               <= skb_len Sample2.split_datagram)
    by (split; vm_compute; [reflexivity | discriminate]).
  split; [exact H2|].
  exact (@encap_recv_pull_no_memory Sample2.ingress_ops_no_memory
           (Sample.udp_socket 64) Sample2.split_datagram H1 H2 eq_refl).
Defined.

Lemma encap_recv_foreign_datagram_witness :
  let ops := Sample.ingress_ops 0 false in
  let sk := Sample.udp_socket 64 in
  let skb := Sample.buffer Sample.control_packet [] in
  @may_pull ops skb min_ingress_len = true /\
  @ovpn_peer_lookup_transp_addr ops (@ovpn_from_udp_sock ops sk)
    (@pulled ops skb min_ingress_len) = NULL /\
  fst (@handle_ingress ops sk skb) = 1 /\
  count is_kfree_skb (m_trace (snd (@handle_ingress ops sk skb))) = 0%nat.
Proof.
  cbv zeta.
  assert (H1 : @ovpn_from_udp_sock (Sample.ingress_ops 0 false)
                 (Sample.udp_socket 64) <> NULL)
    by (vm_compute; discriminate).
  assert (H3 : @ovpn_opcode_from_skb (Sample.ingress_ops 0 false)
                 (@pulled (Sample.ingress_ops 0 false)
                    (Sample.buffer Sample.control_packet []) min_ingress_len)
                 sizeof_udphdr <> @OVPN_DATA_V2 (Sample.ingress_ops 0 false))
    by (vm_compute; discriminate).
  destruct (@encap_recv_foreign_datagram (Sample.ingress_ops 0 false)
              (Sample.udp_socket 64) (Sample.buffer Sample.control_packet [])
              H1 eq_refl H3 eq_refl) as (R1 & _ & R3 & _).
  split; [reflexivity | split; [reflexivity | split; [exact R1 | exact R3]]].
Defined.

Lemma encap_recv_control_known_peer_witness :
  let ops := Sample.ingress_ops 0 true in
  let sk := Sample.udp_socket 64 in
  let skb := Sample.buffer Sample.control_packet [] in
  @may_pull ops skb min_ingress_len = true /\
  @ovpn_peer_lookup_transp_addr ops (@ovpn_from_udp_sock ops sk)
    (@pulled ops skb min_ingress_len) <> NULL /\
  filter is_ovpn_recv (m_trace (snd (@handle_ingress ops sk skb))) =
    [Ev_ovpn_recv Sample.device Sample.peer_by_addr
       (skb_pull_bytes (@pulled ops skb min_ingress_len) sizeof_udphdr)].
Proof.
  cbv zeta.
  assert (H1 : @ovpn_from_udp_sock (Sample.ingress_ops 0 true)
                 (Sample.udp_socket 64) <> NULL)
    by (vm_compute; discriminate).
  assert (H3 : @ovpn_opcode_from_skb (Sample.ingress_ops 0 true)
                 (@pulled (Sample.ingress_ops 0 true)
                    (Sample.buffer Sample.control_packet []) min_ingress_len)
                 sizeof_udphdr <> @OVPN_DATA_V2 (Sample.ingress_ops 0 true))
    by (vm_compute; discriminate).
  assert (H4 : @ovpn_peer_lookup_transp_addr (Sample.ingress_ops 0 true)
                 (@ovpn_from_udp_sock (Sample.ingress_ops 0 true)
                    (Sample.udp_socket 64))
                 (@pulled (Sample.ingress_ops 0 true)
                    (Sample.buffer Sample.control_packet []) min_ingress_len)
               <> NULL)
    by (vm_compute; discriminate).
  split; [reflexivity | split; [exact H4|]].
  exact (proj1 (@encap_recv_control_known_peer (Sample.ingress_ops 0 true)
                  (Sample.udp_socket 64)
                  (Sample.buffer Sample.control_packet [])
                  H1 eq_refl H3 H4)).
Defined.

Lemma encap_recv_handoff_buffer_witness :
  let ops := Sample.ingress_ops 0 false in
  let sk := Sample.udp_socket 64 in
  let skb := Sample2.split_datagram in
  let s := Sample.buffer (firstn 4 (skipn 8 Sample.data_v2_peer7))
             (skipn 12 Sample.data_v2_peer7) in
  In (Ev_ovpn_recv Sample.device Sample.peer7 s)
     (m_trace (snd (@handle_ingress ops sk skb))) /\
  Sample.peer7 <> NULL /\
  4 <= skb_headlen s /\
  skb_bytes s = skipn 8 (skb_bytes skb).
Proof.
  cbv zeta.
  assert (H : In (Ev_ovpn_recv Sample.device Sample.peer7
                    (Sample.buffer (firstn 4 (skipn 8 Sample.data_v2_peer7))
                       (skipn 12 Sample.data_v2_peer7)))
                (m_trace (snd (@handle_ingress (Sample.ingress_ops 0 false)
                   (Sample.udp_socket 64) Sample2.split_datagram))))
    by (vm_compute; auto).
  destruct (@encap_recv_handoff_buffer (Sample.ingress_ops 0 false)
              (Sample.udp_socket 64) Sample2.split_datagram
              Sample.device Sample.peer7 _ H)
    as (_ & R2 & _ & R4 & R5 & _).
  split; [exact H | split; [exact R2 | split; [exact R4 | exact R5]]].
Defined.

Lemma udp_output_never_frees_witness :
  let b := Sample.bind_to AF_INET 1 in
  let m := start Sample.payload None in
  count is_kfree_skb (m_trace m) = 0%nat /\
  fst (@ovpn_udp_output Sample.egress_ops Sample.tun b
         (sk Sample.transport) m) = - EHOSTUNREACH /\
  count is_kfree_skb
    (m_trace (snd (@ovpn_udp_output Sample.egress_ops Sample.tun b
                     (sk Sample.transport) m))) = 0%nat.
Proof.
  cbv zeta. split; [reflexivity | split; [reflexivity|]].
  apply (@udp_output_never_frees Sample.egress_ops). reflexivity.
Defined.

Lemma send_skb_cached_route_reused_witness :
  let m := @send Sample.egress_ops Sample.tun Sample2.peer4 Sample.payload
             Sample2.cached_route in
  @cache_usable4 Sample.egress_ops (sk Sample.transport) Sample2.cached_route /\
  m_cache m = Sample2.cached_route /\
  count is_route_lookup (m_trace m) = 0%nat /\
  count is_cache_write (m_trace m) = 0%nat /\
  count is_xmit (m_trace m) = 1%nat.
Proof.
  cbv zeta.
  assert (Hu : @cache_usable4 Sample.egress_ops (sk Sample.transport)
                 Sample2.cached_route)
    by (split; vm_compute; discriminate).
  destruct (@send_skb_cached_route_reused Sample.egress_ops Sample.tun
              Sample2.peer4 Sample.payload Sample2.cached_route
              Sample.transport (Sample.bind_to AF_INET Sample.remote4)
              {| dc_dst := Sample.route4; dc_saddr := Sample.local4 |}
              eq_refl eq_refl eq_refl (or_introl (conj eq_refl Hu)))
    as (R1 & R2 & R3 & R4 & _).
  split; [exact Hu | split; [exact R1 | split; [exact R2 | split;
    [exact R3 | exact R4]]]].
Defined.


Lemma send_skb_buffer_witness :
  let tr := m_trace (@send Sample.egress_ops Sample.tun
                       (Sample.peer_with (Some Sample.transport) None)
                       Sample.payload None) in
  let s := {| skb_head := skb_head Sample.payload; skb_frags := [];
              skb_dev := dev Sample.tun; skb_ip_summed := CHECKSUM_NONE;
              skb_destructor := NULL; skb_sk := NULL |} in
  In (Ev_kfree_skb s) tr /\
  skb_head s = skb_head Sample.payload /\
  skb_dev s = dev Sample.tun /\ skb_ip_summed s = CHECKSUM_NONE.
Proof.
  cbv zeta.
  match goal with |- In ?x ?tr /\ _ => assert (H : In x tr) end.
  { vm_compute. auto. }
  destruct (@send_skb_buffer Sample.egress_ops Sample.tun
              (Sample.peer_with (Some Sample.transport) None)
              Sample.payload None _ _ H eq_refl)
    as (R1 & _ & _ & R4 & R5 & _).
  split; [exact H | split; [exact R1 | split; [exact R4 | exact R5]]].
Defined.

Lemma send_skb_cache_untouched_witness :
  let peer := Sample.peer_with (Some Sample.transport)
                (Some (Sample.bind_to 99 Sample.remote4)) in
  let m := @send Sample.egress_ops Sample.tun peer Sample.payload
             Sample2.cached_route in
  @family_supported Sample.egress_ops (Sample.bind_to 99 Sample.remote4)
    = false /\
  m_cache m = Sample2.cached_route /\
  count is_route_event (m_trace m) = 0%nat.
Proof.
  cbv zeta. split; [reflexivity|].
  apply (@send_skb_cache_untouched Sample.egress_ops).
  right. right. exists (Sample.bind_to 99 Sample.remote4).
  split; reflexivity.
Defined.

Lemma udp_output_lookup_errno_witness :
  let b := Sample.bind_to AF_INET6 1 in
  1 <= 101 <= MAX_ERRNO /\
  fst (@ipv6_dst_lookup_flow Sample.egress_ops (sk Sample.transport)
         (flow6_init b (sk Sample.transport))) = ERR_PTR (- (101)) /\
  fst (@ovpn_udp_output Sample.egress_ops Sample.tun b (sk Sample.transport)
         (start Sample.payload None)) = - (101).
Proof.
  cbv zeta.
  assert (He : 1 <= 101 <= MAX_ERRNO)
    by (split; vm_compute; discriminate).
  split; [exact He | split; [reflexivity|]].
  exact (proj2 (@udp_output_lookup_errno Sample.egress_ops Sample.tun
                  (Sample.bind_to AF_INET6 1) (sk Sample.transport)
                  Sample.payload 101 He) eq_refl eq_refl eq_refl).
Defined.

Lemma socket_attach_unclaimed_witness :
  let sock := {| sk := Sample.udp_socket NULL |} in
  let r := ovpn_udp_socket_attach Sample.encap_ovpn Sample.memory sock
             Sample.device in
  sk_user_data (sk sock) = NULL /\
  fst r = 0 /\ sk_user_data (sk (snd r)) = Sample.device /\
  encap_rcv (sk (snd r)) = Encap_rcv_ovpn_udp_encap_recv.
Proof.
  cbv zeta.
  destruct (socket_attach_unclaimed Sample.encap_ovpn Sample.memory
              {| sk := Sample.udp_socket NULL |} Sample.device
              eq_refl eq_refl) as (R1 & R2 & _ & R4).
  split; [reflexivity | split; [exact R1 | split; [exact R2 | exact R4]]].
Defined.

Lemma socket_attach_after_attach_witness :
  let sock := {| sk := Sample.udp_socket NULL |} in
  let s1 := snd (ovpn_udp_socket_attach Sample.encap_ovpn Sample.memory sock
                   Sample.device) in
  Sample.device <> NULL /\
  ovpn_udp_socket_attach Sample.encap_ovpn Sample.memory s1 8192 =
    (- EALREADY, s1).
Proof.
  cbv zeta.
  assert (Ha : Sample.device <> NULL) by (vm_compute; discriminate).
  split; [exact Ha|].
  exact (socket_attach_after_attach Sample.encap_ovpn Sample.memory
           {| sk := Sample.udp_socket NULL |} Sample.device 8192
           eq_refl eq_refl Ha).
Defined.

Lemma socket_attach_detach_roundtrip_witness :
  let sock := {| sk := Sample.udp_socket NULL |} in
  mc_loop (sk sock) = true /\ convert_csum (sk sock) = 0 /\
  encap_enabled (sk sock) = false /\
  sk (fst (ovpn_udp_socket_detach
             (snd (ovpn_udp_socket_attach Sample.encap_ovpn Sample.memory sock
                     Sample.device)) 2)) =
  {| sk_protocol := IPPROTO_UDP; sk_mark := 0; sk_bound_dev_if := 0;
     sk_no_check_tx := false; no_check6_tx := false; inet_sport := 1194;
     mc_loop := false; convert_csum := 2; sk_user_data := NULL;
     encap_type := 0; encap_rcv := Encap_rcv_none;
     encap_err_lookup := NULL; encap_destroy := NULL; gro_receive := NULL;
     gro_complete := NULL; encap_enabled := true |}.
Proof.
  cbv zeta. do 3 (split; [reflexivity|]).
  exact (socket_attach_detach_roundtrip Sample.encap_ovpn Sample.memory
           {| sk := Sample.udp_socket NULL |} Sample.device 2
           eq_refl eq_refl eq_refl eq_refl
           (conj eq_refl (conj eq_refl (conj eq_refl eq_refl)))).
Defined.

Lemma socket_detach_twice_witness :
  let once := ovpn_udp_socket_detach Sample.transport 2 in
  let twice := ovpn_udp_socket_detach (fst once) (snd once) in
  2 <= 2 < 2 ^ 63 /\
  snd once = 1 /\ file_released (snd once) = false /\
  snd twice = 0 /\ file_released (snd twice) = true /\
  convert_csum (sk (fst once)) = 1 /\ convert_csum (sk (fst twice)) = 2.
Proof.
  cbv zeta.
  assert (H : 2 <= 2 < 2 ^ 63)
    by (split; vm_compute; [discriminate | reflexivity]).
  destruct (socket_detach_twice Sample.transport 2 H)
    as (R1 & R2 & R3 & R4 & R5 & R6).
  split; [exact H|].
  split; [exact R1 | split; [exact R2 | split; [exact R3 | split;
    [exact R4 | split; [exact R5|]]]]].
  rewrite R6. reflexivity.
Defined.

Lemma netstats_tx_accumulates_witness :
  let t' := fold_left
              (fun t pl => dev_sw_netstats_tx_add 0 t (fst pl) (snd pl))
              [(1, 1400); (2, 2800)] Sample2.counters0 in
  netstats_wf (Sample2.counters0 0%nat) /\
  tx_packets (t' 0%nat) = 3 /\ tx_bytes (t' 0%nat) = 4200.
Proof.
  cbv zeta.
  assert (H : netstats_wf (Sample2.counters0 0%nat))
    by (repeat split; vm_compute; first [reflexivity | discriminate]).
  destruct (netstats_tx_accumulates 0 [(1, 1400); (2, 2800)]
              Sample2.counters0 H) as (R1 & R2 & _).
  split; [exact H | split; [exact R1 | exact R2]].
Defined.

Lemma netstats_rx_accumulates_witness :
  let t' := fold_left (fun t len => dev_sw_netstats_rx_add 1 t len)
              [1400; 60; 1400] Sample2.counters0 in
  netstats_wf (Sample2.counters0 1%nat) /\
  rx_packets (t' 1%nat) = 3 /\ rx_bytes (t' 1%nat) = 2860.
Proof.
  cbv zeta.
  assert (H : netstats_wf (Sample2.counters0 1%nat))
    by (repeat split; vm_compute; first [reflexivity | discriminate]).
  destruct (netstats_rx_accumulates 1 [1400; 60; 1400]
              Sample2.counters0 H) as (R1 & R2 & _).
  split; [exact H | split; [exact R1 | exact R2]].
Defined.

Lemma skb_list_walk_safe_visits_all_witness :
  body_local (ptr -> ptr) Sample2.list_next Sample2.unlink /\
  skb_chain (ptr -> ptr) Sample2.list_next Sample2.three_buffers 16
    [16; 32; 48] /\
  skb_list_walk_safe (ptr -> ptr) Sample2.list_next Sample2.unlink 4 16
    Sample2.three_buffers =
  Some (fold_left (fun m x => Sample2.unlink x m) [16; 32; 48]
          Sample2.three_buffers).
Proof.
  assert (Hl : body_local (ptr -> ptr) Sample2.list_next Sample2.unlink).
  { intros x y m Hxy. unfold Sample2.list_next, Sample2.unlink.
    destruct (y =? x) eqn:E; [apply Z.eqb_eq in E; contradiction|].
    reflexivity. }
  assert (Hc : skb_chain (ptr -> ptr) Sample2.list_next Sample2.three_buffers
                 16 [16; 32; 48]).
  { cbn. unfold NULL. repeat split; discriminate. }
  assert (Hn : NoDup [16; 32; 48]).
  { repeat constructor; cbn; intuition discriminate. }
  split; [exact Hl | split; [exact Hc|]].
  apply (skb_list_walk_safe_visits_all (ptr -> ptr) Sample2.list_next
           Sample2.unlink Hl [16; 32; 48] 16 Sample2.three_buffers 4 Hc Hn).
  cbn. lia.
Defined.
